(** * The resume builder: projection, cooldown and enhancement handlers

    A shallow embedding of the [ResumeBuilder] component of
    [app/(main)/resume/_components/resume-builder.jsx].

    - The form values kept by the form library are a record; the displayed
      markdown ([previewContent]) and the cooldown timestamp
      ([lastEnhancementTime]) are fields of the component state.
    - Strings are byte strings (the UTF-8 encoding of the JavaScript text).
    - Clock readings are integers (milliseconds, as [Date.now()] returns).
    - An event handler is a computation in a small monad [Act]: it reads the
      constants of the render that created it, writes to the component
      store, may throw, and logs what it does to the outside world (toasts,
      clock readings, timers, network requests).
    - What the outside world answers (clock readings, the network response)
      is an argument of the handler. *)

From Stdlib Require Import String Ascii ZArith List Bool Lia DecimalString.
Import ListNotations.

Local Open Scope string_scope.
Local Open Scope Z_scope.

(** ** JavaScript values the component relies on *)

Module Js.

(** The line feed of a template literal. *)
Definition nl : string := String "010"%char EmptyString.

(** Truthiness of a string: only the empty string is falsy. *)
Definition truthy (s : string) : bool :=
  match s with
  | EmptyString => false
  | String _ _ => true
  end.

(** Truthiness of a value that may be [undefined] or [null]. *)
Definition truthy_opt (o : option string) : bool :=
  match o with
  | Some s => truthy s
  | None => false
  end.

(** [a && b] on strings: the left operand when it is falsy. *)
Definition and_then (a b : string) : string :=
  if truthy a then b else a.

(** [a || b] on strings. *)
Definition or_else (a b : string) : string :=
  if truthy a then a else b.

(** [Array.prototype.join]. *)
Definition join (sep : string) (parts : list string) : string :=
  String.concat sep parts.

(** [Math.ceil (x / d)] for an integer [x] and a positive integer [d]. *)
Definition ceil_div (x d : Z) : Z := - ((- x) / d).

(** The decimal text of an integer inside a template literal. *)
Definition show (z : Z) : string := NilZero.string_of_int (Z.to_int z).

(** [String.prototype.startsWith] and [String.prototype.includes]. *)
Fixpoint startsWith (s p : string) : bool :=
  match p, s with
  | EmptyString, _ => true
  | String c p', String d s' => Ascii.eqb c d && startsWith s' p'
  | String _ _, EmptyString => false
  end.

Fixpoint includes (s p : string) : bool :=
  startsWith s p ||
  match s with
  | EmptyString => false
  | String _ s' => includes s' p
  end.

End Js.

(** ** The document model *)

(** [contactInfo]: every field may be missing (the default value is [{}]). *)
Record ContactInfo := {
  name : option string;
  email : option string;
  mobile : option string;
  linkedin : option string;
  twitter : option string
}.

(** Modelled from the spec: the entry form and the schema that fix the shape
    of an entry are not among the sources; an entry has a title, a subtitle,
    a start date, an end date, an "is current" flag and a description. *)
Record Entry := {
  title : string;
  subtitle : string;
  startDate : string;
  endDate : string;
  isCurrent : bool;
  description : string
}.

(** The values of the form ([watch()]). *)
Record FormValues := {
  contactInfo : ContactInfo;
  summary : string;
  skills : string;
  experience : list Entry;
  education : list Entry;
  projects : list Entry
}.

(** [defaultValues] of [useForm]. *)
Definition emptyContact : ContactInfo :=
  {| name := None; email := None; mobile := None;
     linkedin := None; twitter := None |}.

Definition defaultValues : FormValues :=
  {| contactInfo := emptyContact; summary := ""; skills := "";
     experience := []; education := []; projects := [] |}.

(** One call of [setValue (path, value)] of the form library. *)
Inductive ContactField := Name | Email | Mobile | Linkedin | Twitter.

Inductive Write :=
| WContact (f : ContactField) (v : string)
| WSummary (v : string)
| WSkills (v : string)
| WExperience (v : list Entry)
| WEducation (v : list Entry)
| WProjects (v : list Entry).

Definition setContact (f : ContactField) (v : string) (c : ContactInfo)
  : ContactInfo :=
  match f with
  | Name => {| name := Some v; email := email c; mobile := mobile c;
               linkedin := linkedin c; twitter := twitter c |}
  | Email => {| name := name c; email := Some v; mobile := mobile c;
                linkedin := linkedin c; twitter := twitter c |}
  | Mobile => {| name := name c; email := email c; mobile := Some v;
                 linkedin := linkedin c; twitter := twitter c |}
  | Linkedin => {| name := name c; email := email c; mobile := mobile c;
                   linkedin := Some v; twitter := twitter c |}
  | Twitter => {| name := name c; email := email c; mobile := mobile c;
                  linkedin := linkedin c; twitter := Some v |}
  end.

Definition writeField (w : Write) (fv : FormValues) : FormValues :=
  match w with
  | WContact f v =>
      {| contactInfo := setContact f v (contactInfo fv);
         summary := summary fv; skills := skills fv;
         experience := experience fv; education := education fv;
         projects := projects fv |}
  | WSummary v =>
      {| contactInfo := contactInfo fv;
         summary := v; skills := skills fv;
         experience := experience fv; education := education fv;
         projects := projects fv |}
  | WSkills v =>
      {| contactInfo := contactInfo fv;
         summary := summary fv; skills := v;
         experience := experience fv; education := education fv;
         projects := projects fv |}
  | WExperience v =>
      {| contactInfo := contactInfo fv;
         summary := summary fv; skills := skills fv;
         experience := v; education := education fv;
         projects := projects fv |}
  | WEducation v =>
      {| contactInfo := contactInfo fv;
         summary := summary fv; skills := skills fv;
         experience := experience fv; education := v;
         projects := projects fv |}
  | WProjects v =>
      {| contactInfo := contactInfo fv;
         summary := summary fv; skills := skills fv;
         experience := experience fv; education := education fv;
         projects := v |}
  end.

(** ** The component state *)

(** The two tabs: "edit" is the form, "preview" is the markdown editor. *)
Inductive Tab := edit | preview.

Record St := {
  activeTab : Tab;
  previewContent : option string;
  lastEnhancementTime : Z;
  formValues : FormValues;
  isImprovingSummary : bool;
  isImprovingSkills : bool;
  isUploading : bool;
  isEnhancing : bool
}.

Definition setActiveTab (t : Tab) (s : St) : St :=
  {| activeTab := t; previewContent := previewContent s;
     lastEnhancementTime := lastEnhancementTime s;
     formValues := formValues s;
     isImprovingSummary := isImprovingSummary s;
     isImprovingSkills := isImprovingSkills s;
     isUploading := isUploading s; isEnhancing := isEnhancing s |}.

Definition setPreviewContent (v : option string) (s : St) : St :=
  {| activeTab := activeTab s; previewContent := v;
     lastEnhancementTime := lastEnhancementTime s;
     formValues := formValues s;
     isImprovingSummary := isImprovingSummary s;
     isImprovingSkills := isImprovingSkills s;
     isUploading := isUploading s; isEnhancing := isEnhancing s |}.

Definition setLastEnhancementTime (t : Z) (s : St) : St :=
  {| activeTab := activeTab s; previewContent := previewContent s;
     lastEnhancementTime := t;
     formValues := formValues s;
     isImprovingSummary := isImprovingSummary s;
     isImprovingSkills := isImprovingSkills s;
     isUploading := isUploading s; isEnhancing := isEnhancing s |}.

Definition setValue (w : Write) (s : St) : St :=
  {| activeTab := activeTab s; previewContent := previewContent s;
     lastEnhancementTime := lastEnhancementTime s;
     formValues := writeField w (formValues s);
     isImprovingSummary := isImprovingSummary s;
     isImprovingSkills := isImprovingSkills s;
     isUploading := isUploading s; isEnhancing := isEnhancing s |}.

Definition setIsImprovingSummary (b : bool) (s : St) : St :=
  {| activeTab := activeTab s; previewContent := previewContent s;
     lastEnhancementTime := lastEnhancementTime s;
     formValues := formValues s;
     isImprovingSummary := b;
     isImprovingSkills := isImprovingSkills s;
     isUploading := isUploading s; isEnhancing := isEnhancing s |}.

Definition setIsImprovingSkills (b : bool) (s : St) : St :=
  {| activeTab := activeTab s; previewContent := previewContent s;
     lastEnhancementTime := lastEnhancementTime s;
     formValues := formValues s;
     isImprovingSummary := isImprovingSummary s;
     isImprovingSkills := b;
     isUploading := isUploading s; isEnhancing := isEnhancing s |}.

Definition setIsUploading (b : bool) (s : St) : St :=
  {| activeTab := activeTab s; previewContent := previewContent s;
     lastEnhancementTime := lastEnhancementTime s;
     formValues := formValues s;
     isImprovingSummary := isImprovingSummary s;
     isImprovingSkills := isImprovingSkills s;
     isUploading := b; isEnhancing := isEnhancing s |}.

Definition setIsEnhancing (b : bool) (s : St) : St :=
  {| activeTab := activeTab s; previewContent := previewContent s;
     lastEnhancementTime := lastEnhancementTime s;
     formValues := formValues s;
     isImprovingSummary := isImprovingSummary s;
     isImprovingSkills := isImprovingSkills s;
     isUploading := isUploading s; isEnhancing := b |}.

(** Modelled from the spec: the helper [entriesToMarkdown] of [app/lib/helper]
    is not among the sources.  The spec asks for one section per entry list,
    omitted entirely if the list is empty, the entries rendered in list order
    with their title, subtitle, date range and description, a current entry
    showing an open-ended range instead of its end date.  The handlers below
    take the helper as a parameter; this instance serves to run them. *)
Definition specEntryToMarkdown (e : Entry) : string :=
  "### " ++ title e ++ " @ " ++ subtitle e ++ Js.nl
  ++ startDate e ++ " - " ++ (if isCurrent e then "Present" else endDate e)
  ++ Js.nl ++ Js.nl ++ description e.

Definition specEntriesToMarkdown (entries : list Entry) (type : string)
  : string :=
  match entries with
  | [] => ""
  | _ :: _ =>
      "## " ++ type ++ Js.nl ++ Js.nl
      ++ Js.join (Js.nl ++ Js.nl) (map specEntryToMarkdown entries)
  end.

(** ** Effects *)

Inductive ToastKind := toastError | toastInfo | toastSuccess.

(** The body of a request. *)
Inductive Body :=
| SectionBody (content type : string)   (* JSON.stringify ({content, type}) *)
| FormBody (values : FormValues)        (* JSON.stringify (formValues) *)
| FileBody.                             (* the FormData of an upload *)

(** What a handler does to the outside world, in order. *)
Inductive Event :=
| DateNow (t : Z)
| Toast (kind : ToastKind) (message : string)
| SetTimeout (ms : Z)
| Fetch (url : string) (body : Body)
| ConsoleError (label message : string).

(** How an awaited promise or a block completes; an error is its message. *)
Inductive Completion (A : Type) :=
| Normal (a : A)
| Throw (message : string).
Arguments Normal {A} a.
Arguments Throw {A} message.

(** What [fetch] answers: it rejects, or resolves to a response that is not
    [ok] (with its status and the outcome of [response.text()]), or to an
    [ok] response.  For an [ok] response, [response.json()] rejects
    ([Ok (Throw e)]), or resolves to a value whose [content] can be read
    ([Ok (Normal c)], with [c] that [data.content], [None] when the field is
    missing), or resolves to [null] ([OkNull e]): there the later read of
    [data.content] throws a [TypeError], whose message, left to the engine,
    is [e]. *)
Inductive Response (D : Type) :=
| Rejected (message : string)
| NotOk (status : Z) (text : Completion string)
| Ok (json : Completion (option D))
| OkNull (typeError : string).
Arguments Rejected {D} message.
Arguments NotOk {D} status text.
Arguments Ok {D} json.
Arguments OkNull {D} typeError.

(** [data.content] of a whole-document enhancement or of an upload; a field
    is [None] when the response does not carry it. *)
Record Content := {
  content_summary : option string;
  content_skills : option string;
  content_experience : option (list Entry);
  content_education : option (list Entry);
  content_projects : option (list Entry)
}.

(** [entries && entries.length > 0] *)
Definition someEntries (o : option (list Entry)) : bool :=
  match o with
  | Some (_ :: _) => true
  | _ => false
  end.

(** The result of running a handler. *)
Record Run (A : Type) := {
  completion : Completion A;
  store : St;
  log : list Event
}.
Arguments completion {A} r.
Arguments store {A} r.
Arguments log {A} r.

(** A handler reads the constants of the render that created it (first
    argument) and writes to the component store (second argument): a state
    setter does not change what the running handler reads. *)
Definition Act (A : Type) : Type := St -> St -> Run A.

Definition ret {A} (a : A) : Act A :=
  fun _ s => {| completion := Normal a; store := s; log := [] |}.

Definition throw {A} (message : string) : Act A :=
  fun _ s => {| completion := Throw message; store := s; log := [] |}.

Definition bind {A B} (m : Act A) (k : A -> Act B) : Act B :=
  fun r s =>
    match m r s with
    | {| completion := Normal a; store := s1; log := l1 |} =>
        match k a r s1 with
        | {| completion := c; store := s2; log := l2 |} =>
            {| completion := c; store := s2; log := l1 ++ l2 |}
        end
    | {| completion := Throw e; store := s1; log := l1 |} =>
        {| completion := Throw e; store := s1; log := l1 |}
    end.

(** [try { m } catch (error) { h error }] *)
Definition try_catch {A} (m : Act A) (h : string -> Act A) : Act A :=
  fun r s =>
    match m r s with
    | {| completion := Normal a; store := s1; log := l1 |} =>
        {| completion := Normal a; store := s1; log := l1 |}
    | {| completion := Throw e; store := s1; log := l1 |} =>
        match h e r s1 with
        | {| completion := c; store := s2; log := l2 |} =>
            {| completion := c; store := s2; log := l1 ++ l2 |}
        end
    end.

(** [try { m } finally { f }] *)
Definition finally {A} (m : Act A) (f : Act unit) : Act A :=
  fun r s =>
    match m r s with
    | {| completion := c; store := s1; log := l1 |} =>
        match f r s1 with
        | {| completion := Normal _; store := s2; log := l2 |} =>
            {| completion := c; store := s2; log := l1 ++ l2 |}
        | {| completion := Throw e; store := s2; log := l2 |} =>
            {| completion := Throw e; store := s2; log := l1 ++ l2 |}
        end
    end.

(** A constant of the render. *)
Definition read {A} (f : St -> A) : Act A :=
  fun r s => {| completion := Normal (f r); store := s; log := [] |}.

(** A state setter. *)
Definition set (f : St -> St) : Act unit :=
  fun _ s => {| completion := Normal tt; store := f s; log := [] |}.

Definition emit (e : Event) : Act unit :=
  fun _ s => {| completion := Normal tt; store := s; log := [e] |}.

Definition await {A} (c : Completion A) : Act A :=
  fun _ s => {| completion := c; store := s; log := [] |}.

Declare Scope act_scope.
Delimit Scope act_scope with act.
Notation "x <- m ;; k" := (bind m (fun x => k))
  (at level 61, m at next level, right associativity) : act_scope.
Notation "m ;; k" := (bind m (fun _ => k))
  (at level 61, right associativity) : act_scope.
Local Open Scope act_scope.

(** ** The text that is saved

    [onSubmit] saves
    [previewContent.replace(/\n/g, "\n").replace(/\n\s*\n/g, "\n\n").trim()].
    The first replacement maps every line feed to itself.  The two other
    steps look at characters: a line feed, another white-space character
    (what [\s] matches and [trim] removes: tab, vertical tab, form feed,
    carriage return, space, U+00A0, U+1680, U+2000 to U+200A, U+2028,
    U+2029, U+202F, U+205F, U+3000, U+FEFF), or anything else.  A text is
    read as a list of these; a white-space character keeps its bytes. *)
Inductive Tok :=
| Nl
| Ws (bytes : string)
| Ch (b : ascii).

(** The value of a byte. *)
Definition byteCode (a : ascii) : N := N_of_ascii a.

(** The white-space characters of one, two and three bytes in UTF-8. *)
Definition space1 (a : ascii) : bool :=
  ((9 <=? byteCode a) && (byteCode a <=? 13) || (byteCode a =? 32))%N.

Definition space2 (a b : ascii) : bool :=
  ((byteCode a =? 194) && (byteCode b =? 160))%N.

Definition space3 (a b c : ascii) : bool :=
  ((byteCode a =? 225) && (byteCode b =? 154) && (byteCode c =? 128)
   || (byteCode a =? 226) && (byteCode b =? 128)
      && ((128 <=? byteCode c) && (byteCode c <=? 138)
          || (byteCode c =? 168) || (byteCode c =? 169) || (byteCode c =? 175))
   || (byteCode a =? 226) && (byteCode b =? 129) && (byteCode c =? 159)
   || (byteCode a =? 227) && (byteCode b =? 128) && (byteCode c =? 128)
   || (byteCode a =? 239) && (byteCode b =? 187) && (byteCode c =? 191))%N.

(** The characters of a text, as far as white space is concerned; a byte
    that does not start a white-space character stands for itself. *)
Fixpoint tokens (s : string) : list Tok :=
  match s with
  | EmptyString => []
  | String a s1 =>
      if (byteCode a =? 10)%N then Nl :: tokens s1
      else if space1 a then Ws (String a EmptyString) :: tokens s1
      else
        match s1 with
        | String b s2 =>
            if space2 a b
            then Ws (String a (String b EmptyString)) :: tokens s2
            else
              match s2 with
              | String c s3 =>
                  if space3 a b c
                  then Ws (String a (String b (String c EmptyString)))
                       :: tokens s3
                  else Ch a :: tokens s1
              | EmptyString => Ch a :: tokens s1
              end
        | EmptyString => Ch a :: tokens s1
        end
  end.

(** Back to the text. *)
Definition tokenText (t : Tok) : string :=
  match t with
  | Nl => Js.nl
  | Ws bytes => bytes
  | Ch b => String b EmptyString
  end.

Fixpoint flatten (l : list Tok) : string :=
  match l with
  | [] => ""
  | t :: l' => tokenText t ++ flatten l'
  end.


(** [\s] *)
Definition isWhite (t : Tok) : bool :=
  match t with
  | Nl | Ws _ => true
  | Ch _ => false
  end.

(** [\s*\n], greedy, tried right after a line feed: [l] starts with a run
    of white-space characters; the match ends with the last line feed of
    that run, and the result is the text after it.  There is no match when
    the run has no line feed. *)
Fixpoint afterLastNl (l : list Tok) : option (list Tok) :=
  match l with
  | Nl :: l' =>
      match afterLastNl l' with
      | Some r => Some r
      | None => Some l'
      end
  | Ws _ :: l' => afterLastNl l'
  | _ => None
  end.

(** [.replace(/\n\s*\n/g, "\n\n")]: from left to right, a line feed that
    starts a match is replaced, with the match, by two line feeds, and the
    search goes on after the match; every other character is copied.  The
    fuel bounds the number of characters still to read. *)
Fixpoint collapseFuel (fuel : nat) (l : list Tok) : list Tok :=
  match fuel with
  | O => l
  | S fuel' =>
      match l with
      | [] => []
      | Nl :: l' =>
          match afterLastNl l' with
          | Some r => Nl :: Nl :: collapseFuel fuel' r
          | None => Nl :: collapseFuel fuel' l'
          end
      | t :: l' => t :: collapseFuel fuel' l'
      end
  end.

Definition collapse (l : list Tok) : list Tok :=
  collapseFuel (List.length l) l.

(** [.trim()] *)
Fixpoint trimStart (l : list Tok) : list Tok :=
  match l with
  | [] => []
  | t :: l' => if isWhite t then trimStart l' else l
  end.

Definition trimEnd (l : list Tok) : list Tok := rev (trimStart (rev l)).

Definition trim (l : list Tok) : list Tok := trimEnd (trimStart l).

(** The two steps, on characters and on texts. *)
Definition formatTokens (l : list Tok) : list Tok := trim (collapse l).

Definition formatContent (s : string) : string :=
  flatten (formatTokens (tokens s)).

(** The run of white space that [l] starts with has a line feed. *)
Fixpoint runHasNl (l : list Tok) : bool :=
  match l with
  | Nl :: _ => true
  | Ws _ :: l' => runHasNl l'
  | _ => false
  end.

(** A text is tight when a line feed is followed, within the white space
    after it, by at most one more line feed, and then at once: there is no
    white-space-only line and no more than one empty line in a row. *)
Definition okAfter (l : list Tok) : bool :=
  match l with
  | Nl :: r => negb (runHasNl r)
  | _ => negb (runHasNl l)
  end.

Fixpoint tight (l : list Tok) : bool :=
  match l with
  | [] => true
  | Nl :: l' => okAfter l' && tight l'
  | _ :: l' => tight l'
  end.

(** The characters of a text that are not white space. *)
Definition visible (l : list Tok) : list Tok :=
  filter (fun t => negb (isWhite t)) l.

(** The text starts with a white-space character. *)
Definition startsWhite (l : list Tok) : bool :=
  match l with
  | t :: _ => isWhite t
  | [] => false
  end.

(** What [onSubmit] does to the outside world: it hands a text to
    [saveResumeFn], and logs an error to the console. *)
Inductive SubmitEvent :=
| SaveResumeFn (content : string)
| SaveError (message : string).

(** [saveResumeFn] comes from a hook that is not among the sources: how its
    promise settles is the argument [saved].  With no displayed text at all
    ([undefined]) the call of [replace] throws a [TypeError], whose message,
    left to the engine, is the argument [typeError]. *)
Definition onSubmit (typeError : string) (saved : Completion unit) (r : St)
  : list SubmitEvent :=
  match previewContent r with
  | Some content =>
      SaveResumeFn (formatContent content)
      :: match saved with
         | Normal _ => []
         | Throw error => [SaveError error]
         end
  | None => [SaveError typeError]
  end.

(** ** Sample data *)

Definition sampleEntry : Entry :=
  {| title := "Engineer"; subtitle := "Acme"; startDate := "2020";
     endDate := ""; isCurrent := true; description := "Built things." |}.

Definition anaContact : ContactInfo :=
  {| name := Some "Ana"; email := None; mobile := Some "";
     linkedin := None; twitter := None |}.

Definition anaForm : FormValues :=
  {| contactInfo := anaContact; summary := ""; skills := "";
     experience := []; education := []; projects := [] |}.

Definition sampleForm : FormValues :=
  {| contactInfo := anaContact; summary := "Old"; skills := "Rocq";
     experience := []; education := [sampleEntry]; projects := [] |}.

(** A component state with the given tab, displayed text, timestamp and
    form values, and nothing in flight. *)
Definition stateOf (tab : Tab) (text : option string) (last : Z)
  (fv : FormValues) : St :=
  {| activeTab := tab; previewContent := text; lastEnhancementTime := last;
     formValues := fv;
     isImprovingSummary := false; isImprovingSkills := false;
     isUploading := false; isEnhancing := false |}.

(** Responses of a whole-document enhancement: a new summary and new skills
    without education; an empty summary. *)
Definition newSummaryAndSkills : Content :=
  {| content_summary := Some "New"; content_skills := Some "Proofs";
     content_experience := None; content_education := None;
     content_projects := Some [] |}.

Definition emptySummary : Content :=
  {| content_summary := Some ""; content_skills := None;
     content_experience := None; content_education := None;
     content_projects := None |}.

(** ** The component *)

Section ResumeBuilder.

(** The prop of the component: the saved markdown, if any. *)
Variable initialContent : option string.

(** The helper imported from [app/lib/helper]. *)
Variable entriesToMarkdown : list Entry -> string -> string.

(** *** Projection of the form values to markdown *)

(** [parts.push (x)] guarded by the truthiness of a contact field. *)
Definition pushIf (field : option string) (render : string -> string)
  (parts : list string) : list string :=
  match field with
  | Some v => if Js.truthy v then parts ++ [render v] else parts
  | None => parts
  end.

Definition getContactMarkdown (r : St) : string :=
  let contactInfo := contactInfo (formValues r) in
  let parts := [] in
  let parts := pushIf (name contactInfo) (fun v => "**" ++ v ++ "**") parts in
  let parts := pushIf (email contactInfo) (fun v => "📧 " ++ v) parts in
  let parts := pushIf (mobile contactInfo) (fun v => "📱 " ++ v) parts in
  let parts :=
    pushIf (linkedin contactInfo) (fun v => "💼 [LinkedIn](" ++ v ++ ")")
      parts in
  let parts :=
    pushIf (twitter contactInfo) (fun v => "🐦 [Twitter](" ++ v ++ ")")
      parts in
  if (0 <? Z.of_nat (List.length parts))
  then "## Contact Information" ++ Js.nl ++ Js.nl ++ Js.join " | " parts
  else "".

Definition getCombinedContent (r : St) : string :=
  let fv := formValues r in
  Js.join (Js.nl ++ Js.nl)
    (filter Js.truthy
       [ getContactMarkdown r;
         Js.and_then (summary fv)
           ("## Professional Summary" ++ Js.nl ++ Js.nl ++ summary fv);
         Js.and_then (skills fv) ("## Skills" ++ Js.nl ++ Js.nl ++ skills fv);
         entriesToMarkdown (experience fv) "Work Experience";
         entriesToMarkdown (education fv) "Education";
         entriesToMarkdown (projects fv) "Projects" ]).

(** *** The effect that keeps the preview in step with the form

    It runs after every render ([formValues] is a fresh object each time),
    on the state of that render. *)
Definition syncPreview (s : St) : St :=
  match activeTab s with
  | edit =>
      let newContent := getCombinedContent s in
      setPreviewContent
        (if Js.truthy newContent then Some newContent else initialContent) s
  | preview => s
  end.

(** *** Improving one section *)

Definition cooldown : Z := 60000.

Definition waitTime (now last : Z) : Z :=
  Js.ceil_div (cooldown - (now - last)) 1000.

(** [now] is the clock reading of the check, [now'] the one recorded after
    a successful request. *)
Definition improveWithAI (now : Z) (resp : Response string) (now' : Z)
  (current type : string) : Act (option string) :=
  try_catch
    (emit (DateNow now) ;;
     last <- read lastEnhancementTime ;;
     if now - last <? cooldown then
       (emit (Toast toastError
                ("Please wait " ++ Js.show (waitTime now last)
                 ++ " seconds before trying again.")) ;;
        ret None)
     else
       (emit (SetTimeout 500) ;;
        emit (Fetch "/api/resume/enhance" (SectionBody current type)) ;;
        match resp with
        | Rejected e => throw e
        | NotOk status text =>
            errorText <- await text ;;
            if status =? 429 then
              (emit (Toast toastError
                 "Rate limit exceeded. Please wait a minute before trying again.") ;;
               throw
                 "Rate limit exceeded. Please wait a minute before trying again.")
            else throw (Js.or_else errorText "Failed to improve content")
        | Ok json =>
            content <- await json ;;
            emit (DateNow now') ;;
            set (setLastEnhancementTime now') ;;
            ret content
        | OkNull typeError =>
            emit (DateNow now') ;;
            set (setLastEnhancementTime now') ;;
            throw typeError
        end))
    (fun error =>
       emit (ConsoleError "AI improvement error:" error) ;;
       throw error).

Definition handleImproveSummary (now : Z) (resp : Response string) (now' : Z)
  : Act unit :=
  fv <- read formValues ;;
  if negb (Js.truthy (summary fv)) then
    emit (Toast toastError "Please enter a summary first")
  else
    (set (setIsImprovingSummary true) ;;
     finally
       (try_catch
          (emit (Toast toastInfo
                   "Improving your summary... This may take a moment.") ;;
           improvedContent <- improveWithAI now resp now' (summary fv) "summary" ;;
           match improvedContent with
           | Some text =>
               if Js.truthy text then
                 (set (setValue (WSummary text)) ;;
                  emit (Toast toastSuccess "Summary improved successfully!"))
               else ret tt
           | None => ret tt
           end)
          (fun error =>
             emit (ConsoleError "Error improving summary:" error) ;;
             emit (Toast toastError
                     (Js.or_else error
                        "Failed to improve summary. Please try again."))))
       (set (setIsImprovingSummary false))).

Definition handleImproveSkills (now : Z) (resp : Response string) (now' : Z)
  : Act unit :=
  fv <- read formValues ;;
  if negb (Js.truthy (skills fv)) then
    emit (Toast toastError "Please enter skills first")
  else
    (set (setIsImprovingSkills true) ;;
     finally
       (try_catch
          (emit (Toast toastInfo
                   "Improving your skills section... This may take a moment.") ;;
           improvedContent <- improveWithAI now resp now' (skills fv) "skills" ;;
           match improvedContent with
           | Some text =>
               if Js.truthy text then
                 (set (setValue (WSkills text)) ;;
                  emit (Toast toastSuccess "Skills improved successfully!"))
               else ret tt
           | None => ret tt
           end)
          (fun error =>
             emit (ConsoleError "Error improving skills:" error) ;;
             emit (Toast toastError
                     (Js.or_else error
                        "Failed to improve skills. Please try again."))))
       (set (setIsImprovingSkills false))).

(** *** Upload and whole-document enhancement *)

(** [if (c) body] as a statement. *)
Definition when (c : bool) (body : Act unit) : Act unit :=
  if c then body else ret tt.

(** [setValue (path, field)] for a field known to be there. *)
Definition setText (w : string -> Write) (o : option string) : Act unit :=
  match o with
  | Some v => set (setValue (w v))
  | None => ret tt
  end.

Definition setEntries (w : list Entry -> Write) (o : option (list Entry))
  : Act unit :=
  match o with
  | Some v => set (setValue (w v))
  | None => ret tt
  end.

(** [file] tells whether the input event carries a file. *)
Definition handleFileUpload (file : bool) (resp : Response Content)
  : Act unit :=
  if negb file then ret tt
  else
    (set (setIsUploading true) ;;
     finally
       (try_catch
          (emit (Fetch "/api/resume/upload" FileBody) ;;
           match resp with
           | Rejected e => throw e
           | NotOk _ text =>
               errorData <- await text ;;
               throw (Js.or_else errorData "Failed to upload resume")
           | Ok json =>
               content <- await json ;;
               match content with
               | Some c =>
                   when (Js.truthy_opt (content_summary c))
                     (setText WSummary (content_summary c)) ;;
                   when (Js.truthy_opt (content_skills c))
                     (setText WSkills (content_skills c)) ;;
                   when (someEntries (content_experience c))
                     (setEntries WExperience (content_experience c)) ;;
                   when (someEntries (content_education c))
                     (setEntries WEducation (content_education c)) ;;
                   when (someEntries (content_projects c))
                     (setEntries WProjects (content_projects c)) ;;
                   text <- read getCombinedContent ;;
                   set (setPreviewContent (Some text))
               | None => ret tt
               end ;;
               emit (Toast toastSuccess "Resume uploaded successfully!")
           | OkNull typeError => throw typeError
           end)
          (fun error =>
             emit (ConsoleError "Upload error:" error) ;;
             emit (Toast toastError
                     (Js.or_else error "Failed to upload resume"))))
       (set (setIsUploading false))).

Definition handleEnhanceResume (resp : Response Content) : Act unit :=
  fv <- read formValues ;;
  if negb (Js.truthy (summary fv)) && negb (Js.truthy (skills fv))
     && negb (0 <? Z.of_nat (List.length (experience fv)))
  then emit (Toast toastError "Please add some content to your resume first")
  else
    (set (setIsEnhancing true) ;;
     finally
       (try_catch
          (emit (Toast toastInfo
             "Enhancing your resume... This may take a minute or two due to rate limits.") ;;
           emit (Fetch "/api/resume/enhance" (FormBody fv)) ;;
           match resp with
           | Rejected e => throw e
           | NotOk _ text =>
               errorText <- await text ;;
               throw (Js.or_else errorText "Failed to enhance resume")
           | Ok json =>
               content <- await json ;;
               match content with
               | Some c =>
                   when (Js.truthy_opt (content_summary c))
                     (setText WSummary (content_summary c)) ;;
                   when (Js.truthy_opt (content_skills c))
                     (setText WSkills (content_skills c)) ;;
                   when (someEntries (content_experience c))
                     (setEntries WExperience (content_experience c)) ;;
                   when (someEntries (content_education c))
                     (setEntries WEducation (content_education c)) ;;
                   when (someEntries (content_projects c))
                     (setEntries WProjects (content_projects c)) ;;
                   text <- read getCombinedContent ;;
                   set (setPreviewContent (Some text))
               | None => ret tt
               end ;;
               emit (Toast toastSuccess "Resume enhanced successfully!")
           | OkNull typeError => throw typeError
           end)
          (fun error =>
             emit (ConsoleError "Enhancement error:" error) ;;
             if Js.includes error "429"
                || Js.includes error "Too Many Requests"
             then emit (Toast toastError
                    "Rate limit exceeded. Please try again in a minute.")
             else emit (Toast toastError
                    (Js.or_else error
                       "Failed to enhance resume. Please try again later."))))
       (set (setIsEnhancing false))).


(** *** A session: what the user does, one action at a time *)

Inductive Action :=
| Input (w : Write)                      (* a field of the form changes *)
| SelectTab (t : Tab)                    (* [onValueChange] of the tabs *)
| EditMarkdown (text : option string)    (* [onChange] of the editor *)
| ImproveSummary (now : Z) (resp : Response string) (now' : Z)
| ImproveSkills (now : Z) (resp : Response string) (now' : Z)
| Upload (file : bool) (resp : Response Content)
| Enhance (resp : Response Content).

Definition handler (a : Action) : Act unit :=
  match a with
  | Input w => set (setValue w)
  | SelectTab t => set (setActiveTab t)
  | EditMarkdown text => set (setPreviewContent text)
  | ImproveSummary now resp now' => handleImproveSummary now resp now'
  | ImproveSkills now resp now' => handleImproveSkills now resp now'
  | Upload file resp => handleFileUpload file resp
  | Enhance resp => handleEnhanceResume resp
  end.

(** The handler runs on the current render; the component then renders
    again and the preview effect runs. *)
Definition dispatch (a : Action) (s : St) : Run unit :=
  let x := handler a s s in
  {| completion := completion x; store := syncPreview (store x);
     log := log x |}.

Fixpoint session (actions : list Action) (s : St) : St * list Event :=
  match actions with
  | [] => (s, [])
  | a :: rest =>
      let x := dispatch a s in
      let '(s', l) := session rest (store x) in
      (s', (log x ++ l)%list)
  end.

(** The first render, and the state once the two mount effects have run. *)
Definition firstRender : St :=
  {| activeTab := edit; previewContent := initialContent;
     lastEnhancementTime := 0; formValues := defaultValues;
     isImprovingSummary := false; isImprovingSkills := false;
     isUploading := false; isEnhancing := false |}.

Definition mounted : St :=
  let s := syncPreview firstRender in
  if Js.truthy_opt initialContent then setActiveTab preview s else s.

(** *** Observations on a log *)

Definition isFetch (e : Event) : bool :=
  match e with
  | Fetch _ _ => true
  | _ => false
  end.

Definition isDateNow (e : Event) : bool :=
  match e with
  | DateNow _ => true
  | _ => false
  end.

(** The handler reached the network. *)
Definition callsCollaborator (l : list Event) : bool := existsb isFetch l.

(** The handler consulted the clock of the cooldown. *)
Definition consultsCooldown (l : list Event) : bool := existsb isDateNow l.

(** The answer gives the handler nothing to work with: the network
    failed, the service answered with an error status (429 included), the
    body could not be read, or the body is [null]. *)
Definition failed {D} (resp : Response D) : bool :=
  match resp with
  | Ok (Normal _) => false
  | _ => true
  end.

(** The request completed: the response is [ok] and [response.json()] has
    resolved.  What is left are the requests that fail: by a network error
    ([Rejected]), by an error status, 429 included ([NotOk]), or by a body
    that cannot be read ([Ok (Throw _)]). *)
Definition completed {D} (resp : Response D) : bool :=
  match resp with
  | Ok (Normal _) | OkNull _ => true
  | _ => false
  end.

(** The precondition of a whole-document enhancement, as the handler
    tests it. *)
Definition hasContent (fv : FormValues) : bool :=
  Js.truthy (summary fv) || Js.truthy (skills fv)
  || (0 <? Z.of_nat (List.length (experience fv))).

(** What a response leaves of the form values: a field of the response
    that is there and not empty takes the place of the field of the form. *)
Definition mergeText (o : option string) (old : string) : string :=
  match o with
  | Some v => if Js.truthy v then v else old
  | None => old
  end.

Definition mergeEntries (o : option (list Entry)) (old : list Entry)
  : list Entry :=
  match o with
  | Some (e :: l) => e :: l
  | _ => old
  end.

Definition mergeContent (c : Content) (fv : FormValues) : FormValues :=
  {| contactInfo := contactInfo fv;
     summary := mergeText (content_summary c) (summary fv);
     skills := mergeText (content_skills c) (skills fv);
     experience := mergeEntries (content_experience c) (experience fv);
     education := mergeEntries (content_education c) (education fv);
     projects := mergeEntries (content_projects c) (projects fv) |}.

(** The response with its empty fields taken out. *)
Definition dropEmptyText (o : option string) : option string :=
  if Js.truthy_opt o then o else None.

Definition dropEmptyEntries (o : option (list Entry))
  : option (list Entry) :=
  if someEntries o then o else None.

Definition dropEmpty (c : Content) : Content :=
  {| content_summary := dropEmptyText (content_summary c);
     content_skills := dropEmptyText (content_skills c);
     content_experience := dropEmptyEntries (content_experience c);
     content_education := dropEmptyEntries (content_education c);
     content_projects := dropEmptyEntries (content_projects c) |}.

(** Every field of the form is empty. *)
Definition blank (fv : FormValues) : bool :=
  negb (Js.truthy_opt (name (contactInfo fv)))
  && negb (Js.truthy_opt (email (contactInfo fv)))
  && negb (Js.truthy_opt (mobile (contactInfo fv)))
  && negb (Js.truthy_opt (linkedin (contactInfo fv)))
  && negb (Js.truthy_opt (twitter (contactInfo fv)))
  && negb (Js.truthy (summary fv)) && negb (Js.truthy (skills fv))
  && (Z.of_nat (List.length (experience fv)) =? 0)
  && (Z.of_nat (List.length (education fv)) =? 0)
  && (Z.of_nat (List.length (projects fv)) =? 0).

(** The text of the toast of a refused request. *)
Definition busyMessage (now last : Z) : string :=
  "Please wait " ++ Js.show (waitTime now last)
  ++ " seconds before trying again.".

(** How [handleImproveSummary] and [handleImproveSkills] wrap what
    [improveWithAI] does. *)
Definition wrapImprove (w : string -> Write) (flag : bool -> St -> St)
  (info success label fallback : string) (x : Run (option string))
  : Run unit :=
  match x with
  | {| completion := Normal (Some text); store := s1; log := l |} =>
      if Js.truthy text
      then {| completion := Normal tt;
              store := flag false (setValue (w text) s1);
              log := Toast toastInfo info :: l ++ [Toast toastSuccess success] |}
      else {| completion := Normal tt; store := flag false s1;
              log := Toast toastInfo info :: l |}
  | {| completion := Normal None; store := s1; log := l |} =>
      {| completion := Normal tt; store := flag false s1;
         log := Toast toastInfo info :: l |}
  | {| completion := Throw e; store := s1; log := l |} =>
      {| completion := Normal tt; store := flag false s1;
         log := Toast toastInfo info
                :: l ++ [ConsoleError label e;
                         Toast toastError (Js.or_else e fallback)] |}
  end.

Definition enhanceInfo : string :=
  "Enhancing your resume... This may take a minute or two due to rate limits.".

(** The store once a response with a content object has been applied. *)
Definition applied (flag : bool -> St -> St) (c : Content) (r s : St) : St :=
  flag false
    {| activeTab := activeTab s;
       previewContent := Some (getCombinedContent r);
       lastEnhancementTime := lastEnhancementTime s;
       formValues := mergeContent c (formValues s);
       isImprovingSummary := isImprovingSummary s;
       isImprovingSkills := isImprovingSkills s;
       isUploading := isUploading s; isEnhancing := isEnhancing s |}.

(** The claim on partial updates as the specification words it: every
    field that the response carries replaces the field of the form, every
    field that it does not carry stays. *)
Definition overwritesPresentFields (c : Content) (fv fv' : FormValues)
  : Prop :=
  (forall v, content_summary c = Some v -> summary fv' = v)
  /\ (forall v, content_skills c = Some v -> skills fv' = v)
  /\ (forall l, content_experience c = Some l -> experience fv' = l)
  /\ (forall l, content_education c = Some l -> education fv' = l)
  /\ (forall l, content_projects c = Some l -> projects fv' = l)
  /\ (content_summary c = None -> summary fv' = summary fv)
  /\ (content_skills c = None -> skills fv' = skills fv)
  /\ (content_experience c = None -> experience fv' = experience fv)
  /\ (content_education c = None -> education fv' = education fv)
  /\ (content_projects c = None -> projects fv' = projects fv).

(** The actions that write structured data: a form field, the result of an
    enhancement, the result of an upload. *)
Definition structuredWrite (a : Action) : bool :=
  match a with
  | Input _ | ImproveSummary _ _ _ | ImproveSkills _ _ _
  | Upload _ _ | Enhance _ => true
  | SelectTab _ | EditMarkdown _ => false
  end.

(** The claim on the markdown tab as the specification words it: there, a
    structured write does not change the displayed text. *)
Definition keepsDisplayedText (a : Action) (s : St) : Prop :=
  activeTab s = preview ->
  structuredWrite a = true ->
  previewContent (store (dispatch a s)) = previewContent s.

(** Nothing is in flight. *)
Definition idle (s : St) : bool :=
  negb (isImprovingSummary s) && negb (isImprovingSkills s)
  && negb (isUploading s) && negb (isEnhancing s).

(** What the form tab shows for a state: the projection of its form
    values, or the saved markdown when the projection is empty. *)
Definition projected (s : St) : option string :=
  if Js.truthy (getCombinedContent s)
  then Some (getCombinedContent s) else initialContent.

(** The number of error toasts in a log. *)
Definition isErrorToast (e : Event) : bool :=
  match e with
  | Toast toastError _ => true
  | _ => false
  end.

Definition errorToasts (l : list Event) : nat :=
  List.length (filter isErrorToast l).

(** The toast and the error of a 429 answer to an improvement. *)
Definition rateLimitMessage : string :=
  "Rate limit exceeded. Please wait a minute before trying again.".

(** The message of the error that [improveWithAI] throws when it gets no
    content, and whether the answer was a readable 429. *)
Definition improveError (resp : Response string) : string :=
  match resp with
  | Rejected e => e
  | NotOk status (Normal text) =>
      if status =? 429 then rateLimitMessage
      else Js.or_else text "Failed to improve content"
  | NotOk _ (Throw e) => e
  | Ok (Throw e) => e
  | Ok (Normal _) => ""
  | OkNull e => e
  end.

Definition is429 (resp : Response string) : bool :=
  match resp with
  | NotOk status (Normal _) => status =? 429
  | _ => false
  end.

(** The message of the error that the whole-document enhancement and the
    upload throw when they get no content. *)
Definition requestError (fallback : string) (resp : Response Content)
  : string :=
  match resp with
  | Rejected e => e
  | NotOk _ (Normal text) => Js.or_else text fallback
  | NotOk _ (Throw e) => e
  | Ok (Throw e) => e
  | Ok (Normal _) => ""
  | OkNull e => e
  end.

(** *** Deleting the resume

    The page keeps, beside the state above, the score and the feedback of
    the last save.  [deleteResumeFn] comes from a hook that is not among the
    sources; how its promise settles is an argument. *)
Record Page := {
  component : St;
  atsScore : option Z;
  atsFeedback : option string
}.

(** [setValue ("contactInfo", c)] *)
Definition setContactInfo (c : ContactInfo) (s : St) : St :=
  {| activeTab := activeTab s; previewContent := previewContent s;
     lastEnhancementTime := lastEnhancementTime s;
     formValues :=
       {| contactInfo := c;
          summary := summary (formValues s); skills := skills (formValues s);
          experience := experience (formValues s);
          education := education (formValues s);
          projects := projects (formValues s) |};
     isImprovingSummary := isImprovingSummary s;
     isImprovingSkills := isImprovingSkills s;
     isUploading := isUploading s; isEnhancing := isEnhancing s |}.

Definition handleDelete (deleted : Completion unit) (p : Page)
  : Page * list Event :=
  match deleted with
  | Normal _ =>
      let s := component p in
      let s := setContactInfo emptyContact s in
      let s := setValue (WSummary "") s in
      let s := setValue (WSkills "") s in
      let s := setValue (WExperience []) s in
      let s := setValue (WEducation []) s in
      let s := setValue (WProjects []) s in
      let s := setPreviewContent (Some "") s in
      ({| component := s; atsScore := None; atsFeedback := None |},
       [Toast toastSuccess "Resume deleted successfully!"])
  | Throw error =>
      (p, [ConsoleError "Delete error:" error;
           Toast toastError "Failed to delete resume"])
  end.

(** The handler, then the next render and its preview effect. *)
Definition dispatchDelete (deleted : Completion unit) (p : Page)
  : Page * list Event :=
  let '(p', l) := handleDelete deleted p in
  ({| component := syncPreview (component p'); atsScore := atsScore p';
      atsFeedback := atsFeedback p' |}, l).

(** ** Properties *)

(** The one fact about the helper that the properties below rely on: an
    empty entry list gives no section. *)
Hypothesis entriesToMarkdown_nil :
  forall type, entriesToMarkdown [] type = "".

(** *** Projection *)

Lemma pushIf_falsy (field : option string) render parts :
  Js.truthy_opt field = false -> pushIf field render parts = parts.
Proof.
  destruct field as [v|]; simpl; [|reflexivity].
  intros ->. reflexivity.
Qed.

Lemma pushIf_truthy v render parts :
  Js.truthy v = true -> pushIf (Some v) render parts = (parts ++ [render v])%list.
Proof. simpl. intros ->. reflexivity. Qed.

Lemma getContactMarkdown_ext (r1 r2 : St) :
  formValues r1 = formValues r2 ->
  getContactMarkdown r1 = getContactMarkdown r2.
Proof. unfold getContactMarkdown. intros ->. reflexivity. Qed.

Lemma getContactMarkdown_blank (r : St) :
  blank (formValues r) = true -> getContactMarkdown r = "".
Proof.
  unfold blank, getContactMarkdown. intros H.
  repeat (apply andb_prop in H; destruct H as [H ?]).
  rewrite !pushIf_falsy by (apply negb_true_iff; assumption).
  reflexivity.
Qed.

Lemma length_zero {A} (l : list A) :
  (Z.of_nat (List.length l) =? 0) = true -> l = [].
Proof. destruct l; [reflexivity|]. simpl. intros H. discriminate. Qed.

Lemma truthy_false (s : string) : Js.truthy s = false -> s = "".
Proof. destruct s; [reflexivity | discriminate]. Qed.

Lemma truthy_true (s : string) : s <> "" -> Js.truthy s = true.
Proof. destruct s; [congruence | reflexivity]. Qed.

Lemma getCombinedContent_blank (r : St) :
  blank (formValues r) = true -> getCombinedContent r = "".
Proof.
  intros H. unfold getCombinedContent.
  rewrite (getContactMarkdown_blank r H).
  unfold blank in H.
  repeat (apply andb_prop in H; destruct H as [H ?]).
  repeat match goal with
         | E : (Z.of_nat _ =? 0) = true |- _ =>
             apply length_zero in E; rewrite E
         | E : negb (Js.truthy _) = true |- _ =>
             apply negb_true_iff, truthy_false in E; rewrite E
         end.
  rewrite !entriesToMarkdown_nil. reflexivity.
Qed.

(** C3. Projection is a function of the form values alone: two renders
    that agree on the form values project to the same text, whatever the
    tab, the displayed text, the cooldown timestamp and the in-flight
    flags are, hence whatever history led to them; and projecting twice in
    a row inside a handler yields the same text twice, changes nothing in
    the store and reaches nothing outside. *)
Theorem getCombinedContent_deterministic :
  (forall r1 r2 : St,
      formValues r1 = formValues r2 ->
      getCombinedContent r1 = getCombinedContent r2)
  /\ (forall r s : St,
         (a <- read getCombinedContent ;;
          b <- read getCombinedContent ;;
          ret (a, b)) r s
         = {| completion := Normal (getCombinedContent r, getCombinedContent r);
              store := s; log := [] |})
  /\ (forall (h1 h2 : list Action) (s1 s2 : St),
         formValues (fst (session h1 s1)) = formValues (fst (session h2 s2)) ->
         getCombinedContent (fst (session h1 s1))
         = getCombinedContent (fst (session h2 s2))).
Proof.
  assert (E : forall r1 r2 : St,
             formValues r1 = formValues r2 ->
             getCombinedContent r1 = getCombinedContent r2).
  { intros r1 r2 H. unfold getCombinedContent.
    rewrite (getContactMarkdown_ext r1 r2 H), H. reflexivity. }
  split; [exact E|]. split; [reflexivity|].
  intros h1 h2 s1 s2. apply E.
Qed.

(** C8. With an empty summary, empty skills, three empty entry lists and
    a contact block in which only the name, "Ana", is set, the projection
    is the contact section with "Ana" and nothing else: no separator and no
    other section. *)
Theorem getCombinedContent_name_only (r : St) :
  name (contactInfo (formValues r)) = Some "Ana" ->
  Js.truthy_opt (email (contactInfo (formValues r))) = false ->
  Js.truthy_opt (mobile (contactInfo (formValues r))) = false ->
  Js.truthy_opt (linkedin (contactInfo (formValues r))) = false ->
  Js.truthy_opt (twitter (contactInfo (formValues r))) = false ->
  summary (formValues r) = "" ->
  skills (formValues r) = "" ->
  experience (formValues r) = [] ->
  education (formValues r) = [] ->
  projects (formValues r) = [] ->
  getCombinedContent r = "## Contact Information" ++ Js.nl ++ Js.nl ++ "**Ana**"
  /\ getCombinedContent r = getContactMarkdown r.
Proof.
  intros Hn He Hm Hl Ht Hs Hk Hx Hd Hp.
  assert (C : getContactMarkdown r
              = "## Contact Information" ++ Js.nl ++ Js.nl ++ "**Ana**").
  { unfold getContactMarkdown.
    rewrite Hn, (pushIf_falsy _ _ _ He), (pushIf_falsy _ _ _ Hm),
      (pushIf_falsy _ _ _ Hl), (pushIf_falsy _ _ _ Ht).
    reflexivity. }
  assert (G : getCombinedContent r = getContactMarkdown r).
  { unfold getCombinedContent.
    rewrite Hs, Hk, Hx, Hd, Hp, !entriesToMarkdown_nil, C. reflexivity. }
  split; [rewrite G; exact C | exact G].
Qed.

(** *** The preview effect *)

(** C10. In the form tab, with a non-empty saved markdown: when the
    projection of the form is empty (as it is when every field is empty),
    the displayed text falls back to the saved markdown; a projection takes
    the place of the displayed text exactly when it is not empty. *)
Theorem syncPreview_falls_back (s : St) (saved : string) :
  initialContent = Some saved ->
  saved <> "" ->
  activeTab s = edit ->
  (getCombinedContent s = "" -> previewContent (syncPreview s) = Some saved)
  /\ (blank (formValues s) = true ->
      previewContent (syncPreview s) = Some saved)
  /\ (getCombinedContent s <> "" ->
      previewContent (syncPreview s) = Some (getCombinedContent s))
  /\ (previewContent (syncPreview s) = Some (getCombinedContent s) ->
      getCombinedContent s <> "").
Proof.
  intros Hi Hne Ht. unfold syncPreview. rewrite Ht, Hi. simpl.
  assert (A : getCombinedContent s = "" ->
              (if Js.truthy (getCombinedContent s)
               then Some (getCombinedContent s) else Some saved) = Some saved).
  { intros ->. reflexivity. }
  split; [exact A|].
  split; [intros Hb; apply A, getCombinedContent_blank, Hb|].
  split.
  - intros Hp. rewrite (truthy_true _ Hp). reflexivity.
  - destruct (getCombinedContent s) eqn:E; simpl.
    + intros H. injection H as H. congruence.
    + intros _. discriminate.
Qed.

(** *** The cooldown *)

Lemma ceil_div_spec (x : Z) :
  1000 * (Js.ceil_div x 1000 - 1) < x <= 1000 * Js.ceil_div x 1000.
Proof.
  unfold Js.ceil_div.
  pose proof (Z.div_mod (- x) 1000 ltac:(lia)) as E.
  pose proof (Z.mod_pos_bound (- x) 1000 ltac:(lia)) as B.
  lia.
Qed.

Lemma waitTime_positive (now last : Z) :
  now - last < cooldown -> 0 < waitTime now last.
Proof.
  intros H. unfold waitTime.
  pose proof (ceil_div_spec (cooldown - (now - last))). lia.
Qed.

Lemma improveWithAI_busy now resp now' current type (r s : St) :
  now - lastEnhancementTime r < cooldown ->
  improveWithAI now resp now' current type r s
  = {| completion := Normal None; store := s;
       log := [DateNow now;
               Toast toastError (busyMessage now (lastEnhancementTime r))] |}.
Proof.
  intros H. apply Z.ltb_lt in H.
  unfold improveWithAI, try_catch, bind, read, emit, ret. simpl.
  rewrite H. reflexivity.
Qed.

Ltac run_act :=
  unfold finally, try_catch, bind, read, set, emit, ret, throw, await, when,
    setText, setEntries; simpl.

Lemma improveWithAI_succeeds now content now' current type (r s : St) :
  cooldown <= now - lastEnhancementTime r ->
  improveWithAI now (Ok (Normal content)) now' current type r s
  = {| completion := Normal content;
       store := setLastEnhancementTime now' s;
       log := [DateNow now; SetTimeout 500;
               Fetch "/api/resume/enhance" (SectionBody current type);
               DateNow now'] |}.
Proof.
  intros H. apply Z.ltb_ge in H.
  unfold improveWithAI. run_act. rewrite H. reflexivity.
Qed.

(** The run on a body that is [null]: the timestamp is written, then the
    read of [data.content] throws. *)
Lemma improveWithAI_null now typeError now' current type (r s : St) :
  cooldown <= now - lastEnhancementTime r ->
  improveWithAI now (OkNull typeError) now' current type r s
  = {| completion := Throw typeError;
       store := setLastEnhancementTime now' s;
       log := [DateNow now; SetTimeout 500;
               Fetch "/api/resume/enhance" (SectionBody current type);
               DateNow now';
               ConsoleError "AI improvement error:" typeError] |}.
Proof.
  intros H. apply Z.ltb_ge in H.
  unfold improveWithAI. run_act. rewrite H. reflexivity.
Qed.

Lemma improveWithAI_fails now resp now' current type (r s : St) :
  cooldown <= now - lastEnhancementTime r ->
  completed resp = false ->
  exists e l,
    improveWithAI now resp now' current type r s
    = {| completion := Throw e; store := s;
         log := DateNow now :: SetTimeout 500
                :: Fetch "/api/resume/enhance" (SectionBody current type)
                :: l |}
    /\ existsb isDateNow l = false.
Proof.
  intros H F. apply Z.ltb_ge in H.
  unfold improveWithAI. run_act. rewrite H.
  destruct resp as [e | status [t | e] | [c | e] | e]; simpl;
    try discriminate F; try (eexists; eexists; split; reflexivity).
  destruct (status =? 429); simpl; eexists; eexists; split; reflexivity.
Qed.

Lemma improveWithAI_store now resp now' current type (r s : St) :
  store (improveWithAI now resp now' current type r s) = s
  \/ (completed resp = true
      /\ cooldown <= now - lastEnhancementTime r
      /\ store (improveWithAI now resp now' current type r s)
         = setLastEnhancementTime now' s).
Proof.
  destruct (Z.lt_ge_cases (now - lastEnhancementTime r) cooldown) as [B | G].
  - left. rewrite improveWithAI_busy by exact B. reflexivity.
  - destruct (completed resp) eqn:F.
    + right. destruct resp as [e | status t | [c | e] | e];
        try discriminate F.
      * rewrite improveWithAI_succeeds by exact G. auto.
      * rewrite improveWithAI_null by exact G. auto.
    + left. destruct (improveWithAI_fails now resp now' current type r s G F)
        as (e & l & -> & _). reflexivity.
Qed.

Lemma handleImproveSummary_empty now resp now' (r s : St) :
  summary (formValues r) = "" ->
  handleImproveSummary now resp now' r s
  = {| completion := Normal tt; store := s;
       log := [Toast toastError "Please enter a summary first"] |}.
Proof.
  intros H. unfold handleImproveSummary, bind at 1, read at 1.
  rewrite H. reflexivity.
Qed.

Lemma handleImproveSkills_empty now resp now' (r s : St) :
  skills (formValues r) = "" ->
  handleImproveSkills now resp now' r s
  = {| completion := Normal tt; store := s;
       log := [Toast toastError "Please enter skills first"] |}.
Proof.
  intros H. unfold handleImproveSkills, bind at 1, read at 1.
  rewrite H. reflexivity.
Qed.

Lemma handleEnhanceResume_empty resp (r s : St) :
  hasContent (formValues r) = false ->
  handleEnhanceResume resp r s
  = {| completion := Normal tt; store := s;
       log := [Toast toastError
                 "Please add some content to your resume first"] |}.
Proof.
  unfold hasContent. intros H.
  apply orb_false_elim in H. destruct H as [H Hx].
  apply orb_false_elim in H. destruct H as [Hs Hk].
  unfold handleEnhanceResume, bind at 1, read at 1.
  rewrite Hs, Hk, Hx. reflexivity.
Qed.

Lemma hasContent_empty (fv : FormValues) :
  summary fv = "" -> skills fv = "" -> experience fv = [] ->
  hasContent fv = false.
Proof. unfold hasContent. intros -> -> ->. reflexivity. Qed.

Ltac run_handler :=
  cbv beta iota zeta
    delta [finally try_catch bind read set emit ret throw await when
           setText setEntries negb andb orb].

Ltac norm_log :=
  cbn [app]; rewrite ?app_nil_r, <- ?app_assoc; cbn [app].

Lemma handleImproveSummary_run now resp now' (r s : St) :
  Js.truthy (summary (formValues r)) = true ->
  handleImproveSummary now resp now' r s
  = wrapImprove WSummary setIsImprovingSummary
      "Improving your summary... This may take a moment."
      "Summary improved successfully!" "Error improving summary:"
      "Failed to improve summary. Please try again."
      (improveWithAI now resp now' (summary (formValues r)) "summary" r
         (setIsImprovingSummary true s)).
Proof.
  intros T. unfold handleImproveSummary, wrapImprove. run_handler.
  rewrite T.
  destruct (improveWithAI _ _ _ _ _ _ _) as [[[t|]|e] s1 l];
    [destruct (Js.truthy t)| |]; norm_log; reflexivity.
Qed.

Lemma handleImproveSkills_run now resp now' (r s : St) :
  Js.truthy (skills (formValues r)) = true ->
  handleImproveSkills now resp now' r s
  = wrapImprove WSkills setIsImprovingSkills
      "Improving your skills section... This may take a moment."
      "Skills improved successfully!" "Error improving skills:"
      "Failed to improve skills. Please try again."
      (improveWithAI now resp now' (skills (formValues r)) "skills" r
         (setIsImprovingSkills true s)).
Proof.
  intros T. unfold handleImproveSkills, wrapImprove. run_handler.
  rewrite T.
  destruct (improveWithAI _ _ _ _ _ _ _) as [[[t|]|e] s1 l];
    [destruct (Js.truthy t)| |]; norm_log; reflexivity.
Qed.

(** *** Whole-document enhancement and upload *)

Ltac split_content c :=
  destruct c as [[[|? ?]|] [[|? ?]|] [[|? ?]|] [[|? ?]|] [[|? ?]|]].

Lemma handleEnhanceResume_content c (r s : St) :
  hasContent (formValues r) = true ->
  handleEnhanceResume (Ok (Normal (Some c))) r s
  = {| completion := Normal tt;
       store := applied setIsEnhancing c r s;
       log := [Toast toastInfo enhanceInfo;
               Fetch "/api/resume/enhance" (FormBody (formValues r));
               Toast toastSuccess "Resume enhanced successfully!"] |}.
Proof.
  unfold hasContent. intros H.
  unfold handleEnhanceResume, bind at 1, read at 1.
  rewrite <- !negb_orb, H. cbn [negb].
  destruct s as [tab pc last [ci su sk ex ed pr] f1 f2 f3 f4].
  split_content c; reflexivity.
Qed.

Lemma handleEnhanceResume_other resp (r s : St) :
  hasContent (formValues r) = true ->
  (forall c, resp <> Ok (Normal (Some c))) ->
  exists l,
    handleEnhanceResume resp r s
    = {| completion := Normal tt;
         store := setIsEnhancing false (setIsEnhancing true s);
         log := Toast toastInfo enhanceInfo
                :: Fetch "/api/resume/enhance" (FormBody (formValues r))
                :: l |}.
Proof.
  unfold hasContent. intros H N.
  unfold handleEnhanceResume, bind at 1, read at 1.
  rewrite <- !negb_orb, H. cbn [negb].
  destruct resp as [e | status [t | e] | [[c|] | e] | e];
    try (exfalso; apply (N c); reflexivity);
    run_handler;
    repeat match goal with
           | |- context [Js.includes ?a ?b] => destruct (Js.includes a b)
           end;
    eexists; reflexivity.
Qed.

Lemma handleFileUpload_content c (r s : St) :
  handleFileUpload true (Ok (Normal (Some c))) r s
  = {| completion := Normal tt;
       store := applied setIsUploading c r s;
       log := [Fetch "/api/resume/upload" FileBody;
               Toast toastSuccess "Resume uploaded successfully!"] |}.
Proof.
  unfold handleFileUpload. cbn [negb].
  destruct s as [tab pc last [ci su sk ex ed pr] f1 f2 f3 f4].
  split_content c; reflexivity.
Qed.

Lemma handleFileUpload_other resp (r s : St) :
  (forall c, resp <> Ok (Normal (Some c))) ->
  exists l,
    handleFileUpload true resp r s
    = {| completion := Normal tt;
         store := setIsUploading false (setIsUploading true s);
         log := Fetch "/api/resume/upload" FileBody :: l |}.
Proof.
  intros N. unfold handleFileUpload. cbn [negb].
  destruct resp as [e | status [t | e] | [[c|] | e] | e];
    try (exfalso; apply (N c); reflexivity);
    run_handler; eexists; reflexivity.
Qed.

Lemma handleFileUpload_no_file resp (r s : St) :
  handleFileUpload false resp r s
  = {| completion := Normal tt; store := s; log := [] |}.
Proof. reflexivity. Qed.

(** *** What the preview effect leaves alone *)

Lemma syncPreview_lastEnhancementTime (s : St) :
  lastEnhancementTime (syncPreview s) = lastEnhancementTime s.
Proof. unfold syncPreview. destruct (activeTab s); reflexivity. Qed.

Lemma syncPreview_formValues (s : St) :
  formValues (syncPreview s) = formValues s.
Proof. unfold syncPreview. destruct (activeTab s); reflexivity. Qed.

Lemma syncPreview_activeTab (s : St) :
  activeTab (syncPreview s) = activeTab s.
Proof.
  unfold syncPreview. destruct (activeTab s) eqn:E; cbn; exact E.
Qed.

Lemma syncPreview_preview (s : St) :
  activeTab s = preview -> syncPreview s = s.
Proof. unfold syncPreview. intros ->. reflexivity. Qed.

(** *** The improve handlers under the cooldown *)

Lemma handleImproveSummary_busy now resp now' (r s : St) :
  Js.truthy (summary (formValues r)) = true ->
  now - lastEnhancementTime r < cooldown ->
  handleImproveSummary now resp now' r s
  = {| completion := Normal tt;
       store := setIsImprovingSummary false (setIsImprovingSummary true s);
       log := [Toast toastInfo
                 "Improving your summary... This may take a moment.";
               DateNow now;
               Toast toastError (busyMessage now (lastEnhancementTime r))] |}.
Proof.
  intros T B. rewrite handleImproveSummary_run by exact T.
  rewrite improveWithAI_busy by exact B. reflexivity.
Qed.

Lemma handleImproveSkills_busy now resp now' (r s : St) :
  Js.truthy (skills (formValues r)) = true ->
  now - lastEnhancementTime r < cooldown ->
  handleImproveSkills now resp now' r s
  = {| completion := Normal tt;
       store := setIsImprovingSkills false (setIsImprovingSkills true s);
       log := [Toast toastInfo
                 "Improving your skills section... This may take a moment.";
               DateNow now;
               Toast toastError (busyMessage now (lastEnhancementTime r))] |}.
Proof.
  intros T B. rewrite handleImproveSkills_run by exact T.
  rewrite improveWithAI_busy by exact B. reflexivity.
Qed.

Lemma truthy_cases (t : string) : t = "" \/ Js.truthy t = true.
Proof. destruct t; [left | right]; reflexivity. Qed.

Lemma handleImproveSummary_silent now resp now' (r s : St) :
  now - lastEnhancementTime r < cooldown ->
  callsCollaborator (log (handleImproveSummary now resp now' r s)) = false.
Proof.
  intros B. destruct (truthy_cases (summary (formValues r))) as [E | T].
  - rewrite handleImproveSummary_empty by exact E. reflexivity.
  - rewrite handleImproveSummary_busy by assumption. reflexivity.
Qed.

Lemma handleImproveSkills_silent now resp now' (r s : St) :
  now - lastEnhancementTime r < cooldown ->
  callsCollaborator (log (handleImproveSkills now resp now' r s)) = false.
Proof.
  intros B. destruct (truthy_cases (skills (formValues r))) as [E | T].
  - rewrite handleImproveSkills_empty by exact E. reflexivity.
  - rewrite handleImproveSkills_busy by assumption. reflexivity.
Qed.

(** A successful improvement of the summary: the request went out, the
    clock reading taken after it is the new timestamp, and the summary is
    still not empty. *)
Lemma dispatch_ImproveSummary_succeeds now content now' (s : St) :
  Js.truthy (summary (formValues s)) = true ->
  cooldown <= now - lastEnhancementTime s ->
  let x := dispatch (ImproveSummary now (Ok (Normal content)) now') s in
  callsCollaborator (log x) = true
  /\ lastEnhancementTime (store x) = now'
  /\ Js.truthy (summary (formValues (store x))) = true.
Proof.
  intros T G. unfold dispatch, handler.
  rewrite handleImproveSummary_run by exact T.
  rewrite improveWithAI_succeeds by exact G.
  cbn [wrapImprove]. destruct content as [t|].
  - destruct (Js.truthy t) eqn:Tt; cbn [completion store log];
      rewrite syncPreview_lastEnhancementTime, syncPreview_formValues;
      cbn; auto.
  - cbn [completion store log].
    rewrite syncPreview_lastEnhancementTime, syncPreview_formValues.
    cbn; auto.
Qed.

(** C4. A call of [improveWithAI] made less than 60 seconds (on the clock
    of the check) after the recorded timestamp returns [null], leaves the
    store as it is, and logs the clock reading and one toast that carries
    the remaining time in seconds rounded up, a positive number; no request
    is sent, by [improveWithAI] or by the two handlers that call it.  Hence a
    second improvement asked for within 60 seconds of a successful one sends
    no request. *)
Theorem improveWithAI_within_cooldown :
  (forall now resp now' current type (r s : St),
      now - lastEnhancementTime r < cooldown ->
      let x := improveWithAI now resp now' current type r s in
      let w := waitTime now (lastEnhancementTime r) in
      completion x = Normal None
      /\ store x = s
      /\ log x = [DateNow now;
                  Toast toastError
                    ("Please wait " ++ Js.show w
                     ++ " seconds before trying again.")]
      /\ callsCollaborator (log x) = false
      /\ 0 < w
      /\ 1000 * (w - 1) < cooldown - (now - lastEnhancementTime r) <= 1000 * w
      /\ callsCollaborator (log (handleImproveSummary now resp now' r s))
         = false
      /\ callsCollaborator (log (handleImproveSkills now resp now' r s))
         = false)
  /\ (forall now1 content now1' now2 resp now2' (s : St),
         Js.truthy (summary (formValues s)) = true ->
         cooldown <= now1 - lastEnhancementTime s ->
         now2 - now1' < cooldown ->
         let first := dispatch (ImproveSummary now1 (Ok (Normal content)) now1') s in
         let second := dispatch (ImproveSummary now2 resp now2') (store first) in
         callsCollaborator (log first) = true
         /\ callsCollaborator (log second) = false
         /\ log second
            = [Toast toastInfo
                 "Improving your summary... This may take a moment.";
               DateNow now2;
               Toast toastError (busyMessage now2 now1')]
         /\ 0 < waitTime now2 now1').
Proof.
  split.
  - intros now resp now' current type r s B x w. subst x w.
    rewrite improveWithAI_busy by exact B. cbn [completion store log].
    repeat split; try reflexivity.
    + apply waitTime_positive, B.
    + apply ceil_div_spec.
    + apply ceil_div_spec.
    + apply handleImproveSummary_silent, B.
    + apply handleImproveSkills_silent, B.
  - intros now1 content now1' now2 resp now2' s T G B first second.
    destruct (dispatch_ImproveSummary_succeeds now1 content now1' s T G)
      as (F & L & T1).
    fold first in F, L, T1.
    assert (E : log second
                = [Toast toastInfo
                     "Improving your summary... This may take a moment.";
                   DateNow now2;
                   Toast toastError (busyMessage now2 now1')]).
    { subst second. unfold dispatch at 1, handler. cbn [log].
      rewrite handleImproveSummary_busy by (rewrite ?L; assumption).
      rewrite L. reflexivity. }
    repeat split.
    + exact F.
    + rewrite E. reflexivity.
    + exact E.
    + apply waitTime_positive, B.
Qed.

(** *** Failed requests and the timestamp *)

Lemma wrapImprove_lastEnhancementTime w flag info success label fallback x :
  (forall b s, lastEnhancementTime (flag b s) = lastEnhancementTime s) ->
  lastEnhancementTime
    (store (wrapImprove w flag info success label fallback x))
  = lastEnhancementTime (store x).
Proof.
  intros Hf. destruct x as [[[t|]|e] s1 l]; cbn [wrapImprove];
    [destruct (Js.truthy t)| |]; cbn [store]; rewrite Hf; reflexivity.
Qed.



Lemma content_or_not {D} (resp : Response D) :
  (exists c, resp = Ok (Normal (Some c)))
  \/ (forall c, resp <> Ok (Normal (Some c))).
Proof.
  destruct resp as [e | status t | [[c|] | e] | e];
    try (right; intros c'; discriminate).
  left. exists c. reflexivity.
Qed.


Lemma handleFileUpload_lastEnhancementTime file resp (r s : St) :
  lastEnhancementTime (store (handleFileUpload file resp r s))
  = lastEnhancementTime s.
Proof.
  destruct file; [|reflexivity].
  destruct (content_or_not resp) as [[c ->] | N].
  - rewrite handleFileUpload_content. reflexivity.
  - destruct (handleFileUpload_other resp r s N) as [l ->]. reflexivity.
Qed.


(** *** Empty input *)

(** C6. Each enhancement handler tests its input first: with an empty
    summary [handleImproveSummary] shows one error toast and stops (so does
    [handleImproveSkills] with empty skills), and with an empty summary,
    empty skills and no experience entry [handleEnhanceResume] shows one
    error toast and stops; the store is untouched, the clock is not read and
    no request is sent. *)
Theorem empty_input_is_refused_first :
  (forall now resp now' (r s : St),
      summary (formValues r) = "" ->
      let x := handleImproveSummary now resp now' r s in
      completion x = Normal tt /\ store x = s
      /\ log x = [Toast toastError "Please enter a summary first"]
      /\ consultsCooldown (log x) = false
      /\ callsCollaborator (log x) = false)
  /\ (forall now resp now' (r s : St),
         skills (formValues r) = "" ->
         let x := handleImproveSkills now resp now' r s in
         completion x = Normal tt /\ store x = s
         /\ log x = [Toast toastError "Please enter skills first"]
         /\ consultsCooldown (log x) = false
         /\ callsCollaborator (log x) = false)
  /\ (forall resp (r s : St),
         summary (formValues r) = "" ->
         skills (formValues r) = "" ->
         experience (formValues r) = [] ->
         let x := handleEnhanceResume resp r s in
         completion x = Normal tt /\ store x = s
         /\ log x = [Toast toastError
                       "Please add some content to your resume first"]
         /\ consultsCooldown (log x) = false
         /\ callsCollaborator (log x) = false).
Proof.
  split; [|split].
  - intros now resp now' r s E x. subst x.
    rewrite handleImproveSummary_empty by exact E. repeat split.
  - intros now resp now' r s E x. subst x.
    rewrite handleImproveSkills_empty by exact E. repeat split.
  - intros resp r s E1 E2 E3 x. subst x.
    rewrite handleEnhanceResume_empty
      by (apply hasContent_empty; assumption).
    repeat split.
Qed.

(** *** Applying a response to the form *)

Lemma mergeContent_dropEmpty (c : Content) (fv : FormValues) :
  mergeContent (dropEmpty c) fv = mergeContent c fv.
Proof. split_content c; reflexivity. Qed.

Lemma handleEnhanceResume_formValues c (r s : St) :
  formValues (store (handleEnhanceResume (Ok (Normal (Some c))) r s))
  = if hasContent (formValues r)
    then mergeContent c (formValues s) else formValues s.
Proof.
  destruct (hasContent (formValues r)) eqn:H.
  - rewrite handleEnhanceResume_content by exact H. reflexivity.
  - rewrite handleEnhanceResume_empty by exact H. reflexivity.
Qed.

Lemma handleFileUpload_formValues file c (r s : St) :
  formValues (store (handleFileUpload file (Ok (Normal (Some c))) r s))
  = if file then mergeContent c (formValues s) else formValues s.
Proof.
  destruct file; [|reflexivity].
  rewrite handleFileUpload_content. reflexivity.
Qed.

Lemma mergeText_nonempty v old : v <> "" -> mergeText (Some v) old = v.
Proof. destruct v; [congruence | reflexivity]. Qed.

Lemma mergeEntries_nonempty l old : l <> [] -> mergeEntries (Some l) old = l.
Proof. destruct l; [congruence | reflexivity]. Qed.

(** C7, as the code has it. After a whole-document enhancement that
    succeeded with a content object, the form values are the old ones
    merged with the response: every field of the response that is there and
    is not empty has replaced the field of the form, every field that the
    response does not carry is as it was, and so is the contact block.  (A
    response without [education] leaves the education entries alone while
    its non-empty summary and skills replace the old ones.) *)
Theorem enhance_merges_nonempty_fields (c : Content) (r s : St) :
  hasContent (formValues r) = true ->
  let fv := formValues s in
  let fv' :=
    formValues (store (handleEnhanceResume (Ok (Normal (Some c))) r s)) in
  fv' = mergeContent c fv
  /\ (forall v, content_summary c = Some v -> v <> "" -> summary fv' = v)
  /\ (forall v, content_skills c = Some v -> v <> "" -> skills fv' = v)
  /\ (forall l, content_experience c = Some l -> l <> [] ->
                experience fv' = l)
  /\ (forall l, content_education c = Some l -> l <> [] ->
                education fv' = l)
  /\ (forall l, content_projects c = Some l -> l <> [] -> projects fv' = l)
  /\ (content_summary c = None -> summary fv' = summary fv)
  /\ (content_skills c = None -> skills fv' = skills fv)
  /\ (content_experience c = None -> experience fv' = experience fv)
  /\ (content_education c = None -> education fv' = education fv)
  /\ (content_projects c = None -> projects fv' = projects fv)
  /\ contactInfo fv' = contactInfo fv.
Proof.
  intros H fv fv'. subst fv fv'.
  rewrite handleEnhanceResume_formValues, H.
  unfold mergeContent. cbn [summary skills experience education projects
                              contactInfo].
  repeat split.
  - intros v -> N. apply mergeText_nonempty, N.
  - intros v -> N. apply mergeText_nonempty, N.
  - intros l -> N. apply mergeEntries_nonempty, N.
  - intros l -> N. apply mergeEntries_nonempty, N.
  - intros l -> N. apply mergeEntries_nonempty, N.
  - intros ->. reflexivity.
  - intros ->. reflexivity.
  - intros ->. reflexivity.
  - intros ->. reflexivity.
  - intros ->. reflexivity.
Qed.

(** C9. For the whole-document enhancement and for the upload, a field of
    the response that is there but empty (an empty string, an empty list)
    counts as a field that is not there: the handler does exactly what it
    does on the response without that field, and the field of the form
    keeps its value. *)
Theorem empty_field_counts_as_absent (c : Content) (file : bool) (r s : St) :
  handleEnhanceResume (Ok (Normal (Some c))) r s
  = handleEnhanceResume (Ok (Normal (Some (dropEmpty c)))) r s
  /\ handleFileUpload file (Ok (Normal (Some c))) r s
     = handleFileUpload file (Ok (Normal (Some (dropEmpty c)))) r s
  /\ (let fv' :=
        formValues (store (handleEnhanceResume (Ok (Normal (Some c))) r s)) in
      (content_summary c = Some "" -> summary fv' = summary (formValues s))
      /\ (content_skills c = Some "" -> skills fv' = skills (formValues s))
      /\ (content_experience c = Some [] ->
          experience fv' = experience (formValues s))
      /\ (content_education c = Some [] ->
          education fv' = education (formValues s))
      /\ (content_projects c = Some [] ->
          projects fv' = projects (formValues s)))
  /\ (let fv' :=
        formValues
          (store (handleFileUpload file (Ok (Normal (Some c))) r s)) in
      (content_summary c = Some "" -> summary fv' = summary (formValues s))
      /\ (content_skills c = Some "" -> skills fv' = skills (formValues s))
      /\ (content_experience c = Some [] ->
          experience fv' = experience (formValues s))
      /\ (content_education c = Some [] ->
          education fv' = education (formValues s))
      /\ (content_projects c = Some [] ->
          projects fv' = projects (formValues s))).
Proof.
  split; [|split; [|split]].
  - destruct (hasContent (formValues r)) eqn:H.
    + rewrite !handleEnhanceResume_content by exact H.
      unfold applied. rewrite mergeContent_dropEmpty. reflexivity.
    + rewrite !handleEnhanceResume_empty by exact H. reflexivity.
  - destruct file; [|reflexivity].
    rewrite !handleFileUpload_content.
    unfold applied. rewrite mergeContent_dropEmpty. reflexivity.
  - cbv zeta. rewrite handleEnhanceResume_formValues.
    destruct (hasContent (formValues r));
      repeat split; try reflexivity; intros E; unfold mergeContent;
      cbn [summary skills experience education projects]; rewrite E;
      reflexivity.
  - cbv zeta. rewrite handleFileUpload_formValues.
    destruct file;
      repeat split; try reflexivity; intros E; unfold mergeContent;
      cbn [summary skills experience education projects]; rewrite E;
      reflexivity.
Qed.

(** *** Who writes the displayed text *)

Lemma improveWithAI_view now resp now' current type (r s : St) :
  activeTab (store (improveWithAI now resp now' current type r s))
  = activeTab s
  /\ previewContent (store (improveWithAI now resp now' current type r s))
     = previewContent s.
Proof.
  destruct (improveWithAI_store now resp now' current type r s)
    as [-> | (_ & _ & ->)]; split; reflexivity.
Qed.

Lemma wrapImprove_view w flag info success label fallback x :
  (forall b s, activeTab (flag b s) = activeTab s
               /\ previewContent (flag b s) = previewContent s) ->
  activeTab (store (wrapImprove w flag info success label fallback x))
  = activeTab (store x)
  /\ previewContent (store (wrapImprove w flag info success label fallback x))
     = previewContent (store x).
Proof.
  intros Hf. destruct x as [[[t|]|e] s1 l]; cbn [wrapImprove];
    [destruct (Js.truthy t)| |]; cbn [store];
    destruct (Hf false s1) as [A B];
    try (destruct (Hf false (setValue (w t) s1)) as [A' B'];
         cbn [activeTab previewContent setValue] in A', B');
    split; congruence.
Qed.

Lemma handleImproveSummary_view now resp now' (r s : St) :
  activeTab (store (handleImproveSummary now resp now' r s)) = activeTab s
  /\ previewContent (store (handleImproveSummary now resp now' r s))
     = previewContent s.
Proof.
  destruct (truthy_cases (summary (formValues r))) as [E | T].
  - rewrite handleImproveSummary_empty by exact E. split; reflexivity.
  - rewrite handleImproveSummary_run by exact T.
    destruct (wrapImprove_view WSummary setIsImprovingSummary
                "Improving your summary... This may take a moment."
                "Summary improved successfully!" "Error improving summary:"
                "Failed to improve summary. Please try again."
                (improveWithAI now resp now' (summary (formValues r))
                   "summary" r (setIsImprovingSummary true s)))
      as [A B]; [split; reflexivity|].
    rewrite A, B.
    apply (improveWithAI_view now resp now' (summary (formValues r))
             "summary" r (setIsImprovingSummary true s)).
Qed.

Lemma handleImproveSkills_view now resp now' (r s : St) :
  activeTab (store (handleImproveSkills now resp now' r s)) = activeTab s
  /\ previewContent (store (handleImproveSkills now resp now' r s))
     = previewContent s.
Proof.
  destruct (truthy_cases (skills (formValues r))) as [E | T].
  - rewrite handleImproveSkills_empty by exact E. split; reflexivity.
  - rewrite handleImproveSkills_run by exact T.
    destruct (wrapImprove_view WSkills setIsImprovingSkills
                "Improving your skills section... This may take a moment."
                "Skills improved successfully!" "Error improving skills:"
                "Failed to improve skills. Please try again."
                (improveWithAI now resp now' (skills (formValues r))
                   "skills" r (setIsImprovingSkills true s)))
      as [A B]; [split; reflexivity|].
    rewrite A, B.
    apply (improveWithAI_view now resp now' (skills (formValues r))
             "skills" r (setIsImprovingSkills true s)).
Qed.

(** In the markdown tab the effect does nothing: what the handler left in
    the store is what the next render shows. *)
Lemma dispatch_in_preview (a : Action) (s : St) :
  activeTab (store (handler a s s)) = preview ->
  store (dispatch a s) = store (handler a s s).
Proof. intros H. unfold dispatch. cbn [store]. apply syncPreview_preview, H. Qed.

(** C2, as the code has it. In the markdown tab a change of a form field
    and an improvement of the summary or of the skills write the form values
    and leave the displayed text as it is.  A whole-document enhancement or
    an upload whose response carries a content object writes the displayed
    text, in the markdown tab as in the form tab: the handler sets it to
    the projection it computes, without looking at the tab.  When the
    response carries no content object or the request fails, the displayed
    text stays. *)
Theorem markdown_tab_writers :
  (forall s : St,
      activeTab s = preview ->
      (forall w,
          previewContent (store (dispatch (Input w) s)) = previewContent s
          /\ formValues (store (dispatch (Input w) s))
             = writeField w (formValues s))
      /\ (forall now resp now',
             previewContent (store (dispatch (ImproveSummary now resp now') s))
             = previewContent s)
      /\ (forall now resp now',
             previewContent (store (dispatch (ImproveSkills now resp now') s))
             = previewContent s)
      /\ (forall c,
             hasContent (formValues s) = true ->
             previewContent (store (dispatch (Enhance (Ok (Normal (Some c)))) s))
             = Some (getCombinedContent s)
             /\ formValues (store (dispatch (Enhance (Ok (Normal (Some c)))) s))
                = mergeContent c (formValues s))
      /\ (forall c,
             previewContent
               (store (dispatch (Upload true (Ok (Normal (Some c)))) s))
             = Some (getCombinedContent s)
             /\ formValues
                  (store (dispatch (Upload true (Ok (Normal (Some c)))) s))
                = mergeContent c (formValues s))
      /\ (forall resp file,
             (forall c, resp <> Ok (Normal (Some c))) ->
             previewContent (store (dispatch (Enhance resp) s))
             = previewContent s
             /\ previewContent (store (dispatch (Upload file resp) s))
                = previewContent s))
  /\ (forall c (r s : St),
         hasContent (formValues r) = true ->
         previewContent
           (store (handleEnhanceResume (Ok (Normal (Some c))) r s))
         = Some (getCombinedContent r))
  /\ (forall c (r s : St),
         previewContent
           (store (handleFileUpload true (Ok (Normal (Some c))) r s))
         = Some (getCombinedContent r)).
Proof.
  split; [|split].
  - intros s P. split; [|split; [|split; [|split; [|split]]]].
    + intros w. rewrite dispatch_in_preview by exact P.
      split; reflexivity.
    + intros now resp now'.
      destruct (handleImproveSummary_view now resp now' s s) as [A B].
      rewrite dispatch_in_preview by (cbn [handler]; congruence).
      exact B.
    + intros now resp now'.
      destruct (handleImproveSkills_view now resp now' s s) as [A B].
      rewrite dispatch_in_preview by (cbn [handler]; congruence).
      exact B.
    + intros c H.
      rewrite dispatch_in_preview
        by (cbn [handler]; rewrite handleEnhanceResume_content by exact H;
            exact P).
      cbn [handler]. rewrite handleEnhanceResume_content by exact H.
      split; reflexivity.
    + intros c.
      rewrite dispatch_in_preview
        by (cbn [handler]; rewrite handleFileUpload_content; exact P).
      cbn [handler]. rewrite handleFileUpload_content. split; reflexivity.
    + intros resp file H. split.
      * destruct (hasContent (formValues s)) eqn:Hc.
        -- destruct (handleEnhanceResume_other resp s s Hc H) as [l E].
           rewrite dispatch_in_preview
             by (cbn [handler]; rewrite E; exact P).
           cbn [handler]. rewrite E. reflexivity.
        -- rewrite dispatch_in_preview
             by (cbn [handler];
                 rewrite handleEnhanceResume_empty by exact Hc; exact P).
           cbn [handler]. rewrite handleEnhanceResume_empty by exact Hc.
           reflexivity.
      * destruct file.
        -- destruct (handleFileUpload_other resp s s H) as [l E].
           rewrite dispatch_in_preview
             by (cbn [handler]; rewrite E; exact P).
           cbn [handler]. rewrite E. reflexivity.
        -- rewrite dispatch_in_preview by exact P. reflexivity.
  - intros c r s H. rewrite handleEnhanceResume_content by exact H.
    reflexivity.
  - intros c r s. rewrite handleFileUpload_content. reflexivity.
Qed.

(** Whatever the timestamp is, a whole-document enhancement of a form that
    has content sends its request, and it never reads the clock. *)
Lemma handleEnhanceResume_no_cooldown resp (r s : St) :
  hasContent (formValues r) = true ->
  callsCollaborator (log (handleEnhanceResume resp r s)) = true.
Proof.
  intros H. destruct (content_or_not resp) as [[c ->] | N].
  - rewrite handleEnhanceResume_content by exact H. reflexivity.
  - destruct (handleEnhanceResume_other resp r s H N) as [l ->].
    reflexivity.
Qed.

(** ** More on the component *)

(** *** Mounting and the two tabs *)

Lemma getCombinedContent_formValues (s1 s2 : St) :
  formValues s1 = formValues s2 ->
  getCombinedContent s1 = getCombinedContent s2.
Proof.
  intros H. unfold getCombinedContent.
  rewrite (getContactMarkdown_ext s1 s2 H), H. reflexivity.
Qed.

Lemma projected_formValues (s1 s2 : St) :
  formValues s1 = formValues s2 -> projected s1 = projected s2.
Proof.
  intros H. unfold projected.
  rewrite (getCombinedContent_formValues s1 s2 H). reflexivity.
Qed.

Lemma syncPreview_edit (s : St) :
  activeTab s = edit -> syncPreview s = setPreviewContent (projected s) s.
Proof. unfold syncPreview, projected. intros ->. reflexivity. Qed.

Lemma dispatch_SelectTab_edit (s : St) :
  store (dispatch (SelectTab edit) s)
  = setPreviewContent (projected s) (setActiveTab edit s).
Proof.
  unfold dispatch. cbn [store handler].
  rewrite syncPreview_edit by reflexivity.
  rewrite (projected_formValues _ s) by reflexivity. reflexivity.
Qed.

Lemma dispatch_SelectTab_preview (s : St) :
  store (dispatch (SelectTab preview) s) = setActiveTab preview s.
Proof. apply dispatch_in_preview. reflexivity. Qed.

Lemma dispatch_EditMarkdown (text : option string) (s : St) :
  activeTab s = preview ->
  store (dispatch (EditMarkdown text) s) = setPreviewContent text s.
Proof. intros T. apply dispatch_in_preview. exact T. Qed.

Lemma dispatch_Input_preview (w : Write) (s : St) :
  activeTab s = preview -> store (dispatch (Input w) s) = setValue w s.
Proof. intros T. apply dispatch_in_preview. exact T. Qed.

(** X1. Once mounted, the component shows the saved markdown, whatever it is;
    it opens on the markdown tab exactly when there is a non-empty saved
    markdown, with an empty form and a cooldown timestamp of 0. *)
Theorem mounted_shows_saved_markdown :
  previewContent mounted = initialContent
  /\ activeTab mounted
     = (if Js.truthy_opt initialContent then preview else edit)
  /\ formValues mounted = defaultValues
  /\ lastEnhancementTime mounted = 0
  /\ idle mounted = true.
Proof.
  unfold mounted.
  assert (E : syncPreview firstRender
              = setPreviewContent initialContent firstRender).
  { rewrite syncPreview_edit by reflexivity. unfold projected.
    rewrite getCombinedContent_blank by reflexivity. reflexivity. }
  rewrite E. destruct (Js.truthy_opt initialContent); repeat split.
Qed.

(** X2. In the form tab the displayed text is never anything but the
    projection of the form values as they are now (the saved markdown when
    that projection is empty): this holds after every single action that
    ends in the form tab, hence at the end of every session that does, and
    in particular after a whole-document enhancement, where the text shown
    is the projection of the merged form values. *)
Theorem form_tab_shows_projection :
  (forall (a : Action) (s : St),
      activeTab (store (dispatch a s)) = edit ->
      previewContent (store (dispatch a s))
      = projected (store (dispatch a s)))
  /\ (forall (actions : list Action) (s : St),
         actions <> [] ->
         activeTab (fst (session actions s)) = edit ->
         previewContent (fst (session actions s))
         = projected (fst (session actions s)))
  /\ (forall (c : Content) (s : St),
         activeTab s = edit ->
         hasContent (formValues s) = true ->
         let s' := store (dispatch (Enhance (Ok (Normal (Some c)))) s) in
         formValues s' = mergeContent c (formValues s)
         /\ previewContent s' = projected s').
Proof.
  assert (A : forall (a : Action) (s : St),
             activeTab (store (dispatch a s)) = edit ->
             previewContent (store (dispatch a s))
             = projected (store (dispatch a s))).
  { intros a s. unfold dispatch. cbn [store].
    rewrite syncPreview_activeTab. intros T.
    rewrite syncPreview_edit by exact T. cbn [previewContent].
    apply projected_formValues. reflexivity. }
  split; [exact A|]. split.
  - intros actions. induction actions as [|a rest IH]; intros s N.
    + congruence.
    + cbn [session]. destruct rest as [|b rest'].
      * cbn [session fst]. apply A.
      * specialize (IH (store (dispatch a s)) ltac:(discriminate)).
        destruct (session (b :: rest') (store (dispatch a s))) as [s' l].
        exact IH.
  - intros c s T H s'. subst s'. split.
    + unfold dispatch. cbn [store handler].
      rewrite syncPreview_formValues.
      rewrite handleEnhanceResume_content by exact H. reflexivity.
    + apply A. unfold dispatch. cbn [store handler].
      rewrite syncPreview_activeTab.
      rewrite handleEnhanceResume_content by exact H. exact T.
Qed.

(** X3. Selecting the form tab replaces the displayed text with the
    projection of the form values (the saved markdown when it is empty),
    whatever was on display, so an edit made in the markdown editor is lost
    on a round trip through the form tab; selecting the markdown tab
    changes nothing but the tab; and an edit in the markdown editor changes
    the displayed text and nothing in the form. *)
Theorem tab_switch_reprojects :
  (forall s : St,
      store (dispatch (SelectTab edit) s)
      = setPreviewContent (projected s) (setActiveTab edit s))
  /\ (forall s : St,
         store (dispatch (SelectTab preview) s) = setActiveTab preview s)
  /\ (forall (text : option string) (s : St),
         activeTab s = preview ->
         store (dispatch (EditMarkdown text) s) = setPreviewContent text s)
  /\ (forall (text : option string) (s : St),
         activeTab s = preview ->
         let s' :=
           fst (session [EditMarkdown text; SelectTab edit; SelectTab preview]
                  s) in
         previewContent s' = projected s
         /\ formValues s' = formValues s
         /\ activeTab s' = preview).
Proof.
  split; [exact dispatch_SelectTab_edit|].
  split; [exact dispatch_SelectTab_preview|].
  split; [exact dispatch_EditMarkdown|].
  intros text s T s'. subst s'. cbn [session].
  rewrite (dispatch_EditMarkdown text s T), dispatch_SelectTab_edit,
    dispatch_SelectTab_preview.
  cbn [fst].
  rewrite (projected_formValues _ s) by reflexivity.
  repeat split.
Qed.

(** X4. A change made to the form while the markdown tab is on display does
    not show there, and shows as soon as the form tab is selected: the text
    is then the projection of the changed form values. *)
Theorem form_change_shows_on_return (w : Write) (s : St) :
  activeTab s = preview ->
  let s1 := fst (session [Input w] s) in
  let s2 := fst (session [Input w; SelectTab edit] s) in
  previewContent s1 = previewContent s
  /\ formValues s2 = writeField w (formValues s)
  /\ previewContent s2 = projected (setValue w s).
Proof.
  intros T s1 s2. subst s1 s2. cbn [session].
  rewrite (dispatch_Input_preview w s T), dispatch_SelectTab_edit.
  cbn [fst]. repeat split.
Qed.

(** *** Handlers: completion, flags, what a run leaves in the store *)

Lemma wrapImprove_completion w flag info success label fallback x :
  completion (wrapImprove w flag info success label fallback x) = Normal tt.
Proof.
  destruct x as [[[t|]|e] s1 l]; cbn [wrapImprove];
    [destruct (Js.truthy t)| |]; reflexivity.
Qed.

Lemma wrapImprove_store w flag info success label fallback x :
  store (wrapImprove w flag info success label fallback x)
  = flag false
      match completion x with
      | Normal (Some t) =>
          if Js.truthy t then setValue (w t) (store x) else store x
      | _ => store x
      end.
Proof.
  destruct x as [[[t|]|e] s1 l]; cbn [wrapImprove completion store];
    [destruct (Js.truthy t)| |]; reflexivity.
Qed.

Lemma handler_completes (a : Action) (r s : St) :
  completion (handler a r s) = Normal tt.
Proof.
  destruct a as [w | t | text | now resp now' | now resp now'
                | file resp | resp]; cbn [handler]; try reflexivity.
  - destruct (truthy_cases (summary (formValues r))) as [E | T].
    + rewrite handleImproveSummary_empty by exact E. reflexivity.
    + rewrite handleImproveSummary_run by exact T.
      apply wrapImprove_completion.
  - destruct (truthy_cases (skills (formValues r))) as [E | T].
    + rewrite handleImproveSkills_empty by exact E. reflexivity.
    + rewrite handleImproveSkills_run by exact T.
      apply wrapImprove_completion.
  - destruct file; [|reflexivity].
    destruct (content_or_not resp) as [[c ->] | N].
    + rewrite handleFileUpload_content. reflexivity.
    + destruct (handleFileUpload_other resp r s N) as [l ->]. reflexivity.
  - destruct (hasContent (formValues r)) eqn:H.
    + destruct (content_or_not resp) as [[c ->] | N].
      * rewrite handleEnhanceResume_content by exact H. reflexivity.
      * destruct (handleEnhanceResume_other resp r s H N) as [l ->].
        reflexivity.
    + rewrite handleEnhanceResume_empty by exact H. reflexivity.
Qed.

Lemma idle_syncPreview (s : St) : idle (syncPreview s) = idle s.
Proof. unfold syncPreview. destruct (activeTab s); reflexivity. Qed.

Lemma improveWithAI_store_cases now resp now' current type (r s : St) :
  store (improveWithAI now resp now' current type r s) = s
  \/ store (improveWithAI now resp now' current type r s)
     = setLastEnhancementTime now' s.
Proof.
  destruct (improveWithAI_store now resp now' current type r s)
    as [E | (_ & _ & E)]; auto.
Qed.

Lemma handler_idle (a : Action) (r s : St) :
  idle s = true -> idle (store (handler a r s)) = true.
Proof.
  intros I.
  destruct a as [w | t | text | now resp now' | now resp now'
                | file resp | resp]; cbn [handler]; try exact I.
  - destruct (truthy_cases (summary (formValues r))) as [E | T].
    + rewrite handleImproveSummary_empty by exact E. exact I.
    + rewrite handleImproveSummary_run by exact T.
      rewrite wrapImprove_store.
      destruct (improveWithAI_store_cases now resp now'
                  (summary (formValues r)) "summary" r
                  (setIsImprovingSummary true s)) as [-> | ->];
        destruct (completion _) as [[t|]|e];
        try destruct (Js.truthy t);
        unfold idle in *; cbn; destruct (isImprovingSummary s);
        try discriminate I; exact I.
  - destruct (truthy_cases (skills (formValues r))) as [E | T].
    + rewrite handleImproveSkills_empty by exact E. exact I.
    + rewrite handleImproveSkills_run by exact T.
      rewrite wrapImprove_store.
      destruct (improveWithAI_store_cases now resp now'
                  (skills (formValues r)) "skills" r
                  (setIsImprovingSkills true s)) as [-> | ->];
        destruct (completion _) as [[t|]|e];
        try destruct (Js.truthy t);
        unfold idle in *; cbn;
        destruct (isImprovingSummary s), (isImprovingSkills s);
        try discriminate I; exact I.
  - destruct file; [|exact I].
    destruct (content_or_not resp) as [[c ->] | N].
    + rewrite handleFileUpload_content.
      unfold idle in *; cbn.
      destruct (isImprovingSummary s), (isImprovingSkills s),
        (isUploading s); try discriminate I; exact I.
    + destruct (handleFileUpload_other resp r s N) as [l ->].
      unfold idle in *; cbn.
      destruct (isImprovingSummary s), (isImprovingSkills s),
        (isUploading s); try discriminate I; exact I.
  - destruct (hasContent (formValues r)) eqn:H.
    + destruct (content_or_not resp) as [[c ->] | N].
      * rewrite handleEnhanceResume_content by exact H.
        unfold idle in *; cbn.
        destruct (isImprovingSummary s), (isImprovingSkills s),
          (isUploading s), (isEnhancing s); try discriminate I;
          reflexivity.
      * destruct (handleEnhanceResume_other resp r s H N) as [l ->].
        unfold idle in *; cbn.
        destruct (isImprovingSummary s), (isImprovingSkills s),
          (isUploading s), (isEnhancing s); try discriminate I;
          reflexivity.
    + rewrite handleEnhanceResume_empty by exact H. exact I.
Qed.

(** X5. No handler lets an error escape: whatever the network answers, every
    action completes normally (a failure ends in a toast), and if nothing
    was in flight before the action, nothing is in flight after it, at the
    end of a whole session too. *)
Theorem handlers_complete_and_settle :
  (forall (a : Action) (r s : St), completion (handler a r s) = Normal tt)
  /\ (forall (a : Action) (s : St), completion (dispatch a s) = Normal tt)
  /\ (forall (a : Action) (s : St),
         idle s = true -> idle (store (dispatch a s)) = true)
  /\ (forall (actions : list Action) (s : St),
         idle s = true -> idle (fst (session actions s)) = true).
Proof.
  assert (D : forall (a : Action) (s : St),
             idle s = true -> idle (store (dispatch a s)) = true).
  { intros a s I. unfold dispatch. cbn [store].
    rewrite idle_syncPreview. apply handler_idle, I. }
  split; [exact handler_completes|].
  split; [intros a s; apply handler_completes|].
  split; [exact D|].
  intros actions. induction actions as [|a rest IH]; intros s I.
  - exact I.
  - cbn [session]. specialize (IH (store (dispatch a s)) (D a s I)).
    destruct (session rest (store (dispatch a s))) as [s' l]. exact IH.
Qed.

(** *** More on the cooldown *)

Lemma dispatch_ImproveSkills_succeeds now content now' (s : St) :
  Js.truthy (skills (formValues s)) = true ->
  cooldown <= now - lastEnhancementTime s ->
  let x := dispatch (ImproveSkills now (Ok (Normal content)) now') s in
  callsCollaborator (log x) = true
  /\ lastEnhancementTime (store x) = now'.
Proof.
  intros T G. unfold dispatch, handler.
  rewrite handleImproveSkills_run by exact T.
  rewrite improveWithAI_succeeds by exact G.
  cbn [wrapImprove]. destruct content as [t|].
  - destruct (Js.truthy t) eqn:Tt; cbn [completion store log];
      rewrite syncPreview_lastEnhancementTime; cbn; auto.
  - cbn [completion store log].
    rewrite syncPreview_lastEnhancementTime. cbn; auto.
Qed.

Lemma handleImproveSummary_refused now resp now' (r s : St) :
  now - lastEnhancementTime r < cooldown ->
  formValues (store (handleImproveSummary now resp now' r s)) = formValues s.
Proof.
  intros B. destruct (truthy_cases (summary (formValues r))) as [E | T].
  - rewrite handleImproveSummary_empty by exact E. reflexivity.
  - rewrite handleImproveSummary_busy by assumption. reflexivity.
Qed.

Lemma handleImproveSkills_refused now resp now' (r s : St) :
  now - lastEnhancementTime r < cooldown ->
  formValues (store (handleImproveSkills now resp now' r s)) = formValues s.
Proof.
  intros B. destruct (truthy_cases (skills (formValues r))) as [E | T].
  - rewrite handleImproveSkills_empty by exact E. reflexivity.
  - rewrite handleImproveSkills_busy by assumption. reflexivity.
Qed.

(** X6. The summary and the skills share one cooldown: after a successful
    improvement of either, an improvement of the other asked for less than
    60 seconds after the recorded timestamp sends no request and leaves the
    form values as they are. *)
Theorem sections_share_cooldown now1 content now1' now2 resp now2' (s : St) :
  cooldown <= now1 - lastEnhancementTime s ->
  now2 - now1' < cooldown ->
  (Js.truthy (summary (formValues s)) = true ->
   let first :=
     dispatch (ImproveSummary now1 (Ok (Normal content)) now1') s in
   let second := dispatch (ImproveSkills now2 resp now2') (store first) in
   callsCollaborator (log first) = true
   /\ callsCollaborator (log second) = false
   /\ formValues (store second) = formValues (store first)
   /\ lastEnhancementTime (store second) = now1')
  /\ (Js.truthy (skills (formValues s)) = true ->
      let first :=
        dispatch (ImproveSkills now1 (Ok (Normal content)) now1') s in
      let second := dispatch (ImproveSummary now2 resp now2') (store first) in
      callsCollaborator (log first) = true
      /\ callsCollaborator (log second) = false
      /\ formValues (store second) = formValues (store first)
      /\ lastEnhancementTime (store second) = now1').
Proof.
  intros G B. split; intros T first second.
  - destruct (dispatch_ImproveSummary_succeeds now1 content now1' s T G)
      as (F & L & _).
    fold first in F, L.
    assert (B' : now2 - lastEnhancementTime (store first) < cooldown)
      by (rewrite L; exact B).
    subst second. unfold dispatch at 1 2 3, handler. cbn [store log].
    rewrite syncPreview_formValues, syncPreview_lastEnhancementTime.
    repeat split.
    + exact F.
    + apply handleImproveSkills_silent, B'.
    + apply handleImproveSkills_refused, B'.
    + destruct (truthy_cases (skills (formValues (store first))))
        as [E | T'].
      * rewrite handleImproveSkills_empty by exact E. exact L.
      * rewrite handleImproveSkills_busy by assumption. exact L.
  - destruct (dispatch_ImproveSkills_succeeds now1 content now1' s T G)
      as (F & L).
    fold first in F, L.
    assert (B' : now2 - lastEnhancementTime (store first) < cooldown)
      by (rewrite L; exact B).
    subst second. unfold dispatch at 1 2 3, handler. cbn [store log].
    rewrite syncPreview_formValues, syncPreview_lastEnhancementTime.
    repeat split.
    + exact F.
    + apply handleImproveSummary_silent, B'.
    + apply handleImproveSummary_refused, B'.
    + destruct (truthy_cases (summary (formValues (store first))))
        as [E | T'].
      * rewrite handleImproveSummary_empty by exact E. exact L.
      * rewrite handleImproveSummary_busy by assumption. exact L.
Qed.

(** X7. [improveWithAI] sends its request exactly when at least 60000 ms lie
    between the recorded timestamp and the clock reading of the check (at
    exactly 60000 ms the request goes out), and it reads the clock in every
    case. *)
Theorem improveWithAI_sends_iff_cooled_down
  now resp now' current type (r s : St) :
  callsCollaborator (log (improveWithAI now resp now' current type r s))
  = (cooldown <=? now - lastEnhancementTime r)
  /\ consultsCooldown (log (improveWithAI now resp now' current type r s))
     = true.
Proof.
  destruct (Z.lt_ge_cases (now - lastEnhancementTime r) cooldown) as [B | G].
  - rewrite improveWithAI_busy by exact B.
    apply Z.leb_gt in B. rewrite B. split; reflexivity.
  - pose proof G as G'. apply Z.leb_le in G'. rewrite G'.
    destruct (completed resp) eqn:F.
    + destruct resp as [e | status t | [c | e] | e]; try discriminate F.
      * rewrite improveWithAI_succeeds by exact G. split; reflexivity.
      * rewrite improveWithAI_null by exact G. split; reflexivity.
    + destruct (improveWithAI_fails now resp now' current type r s G F)
        as (e & l & -> & _). split; reflexivity.
Qed.

(** X8. The number of seconds shown in the toast of a refused improvement is
    between 1 and 60 when the clock has not gone back since the timestamp was
    recorded, it is 60 right at the timestamp, and it is above 60 when the
    clock has gone back by a second or more. *)
Theorem waitTime_bounds (now last : Z) :
  (0 <= now - last < cooldown -> 1 <= waitTime now last <= 60)
  /\ (now = last -> waitTime now last = 60)
  /\ (now - last <= -1000 -> 60 < waitTime now last).
Proof.
  unfold waitTime.
  pose proof (ceil_div_spec (cooldown - (now - last))) as S.
  unfold cooldown in *.
  repeat split; intros; try lia.
Qed.

(** *** What the user is told when an improvement fails, and what a
    successful one writes *)

Lemma improveWithAI_failure_run now resp now' current type (r s : St) :
  cooldown <= now - lastEnhancementTime r ->
  completed resp = false ->
  improveWithAI now resp now' current type r s
  = {| completion := Throw (improveError resp); store := s;
       log := [DateNow now; SetTimeout 500;
               Fetch "/api/resume/enhance" (SectionBody current type)]
              ++ (if is429 resp
                  then [Toast toastError rateLimitMessage] else [])
              ++ [ConsoleError "AI improvement error:" (improveError resp)]
    |}.
Proof.
  intros H F. apply Z.ltb_ge in H.
  unfold improveWithAI. run_handler. rewrite H.
  destruct resp as [e | status [t | e] | [c | e] | e];
    cbn [improveError is429];
    try discriminate F; try reflexivity.
  destruct (status =? 429); reflexivity.
Qed.

(** X9. An improvement of the summary that was sent (outside the cooldown,
    with a summary to improve) and gave no content.  When the request fails,
    by a network error, an error status or a body that cannot be read, the
    form values and the timestamp stay, and the handler shows one error
    toast with the message of the error, or with "Failed to improve
    summary. Please try again." when that message is empty; when the
    service answers 429 with a readable body, [improveWithAI] has already
    shown the same rate-limit toast, so the user sees it twice, and the body
    is not shown.  When the request completes with the body [null], the
    clock is read a second time and the timestamp is written before the read
    of [data.content] throws: the form values stay, one error toast shows
    the message of that error, and the cooldown has started. *)
Theorem handleImproveSummary_failure now now' (r s : St) :
  Js.truthy (summary (formValues r)) = true ->
  cooldown <= now - lastEnhancementTime r ->
  (forall resp,
      completed resp = false ->
      let x := handleImproveSummary now resp now' r s in
      let m := improveError resp in
      log x
      = ([Toast toastInfo
            "Improving your summary... This may take a moment.";
          DateNow now; SetTimeout 500;
          Fetch "/api/resume/enhance"
            (SectionBody (summary (formValues r)) "summary")]
         ++ (if is429 resp then [Toast toastError rateLimitMessage] else [])
         ++ [ConsoleError "AI improvement error:" m;
             ConsoleError "Error improving summary:" m;
             Toast toastError
               (Js.or_else m
                  "Failed to improve summary. Please try again.")])%list
      /\ errorToasts (log x) = (if is429 resp then 2%nat else 1%nat)
      /\ formValues (store x) = formValues s
      /\ lastEnhancementTime (store x) = lastEnhancementTime s
      /\ isImprovingSummary (store x) = false)
  /\ (forall typeError,
         let x := handleImproveSummary now (OkNull typeError) now' r s in
         log x
         = [Toast toastInfo
              "Improving your summary... This may take a moment.";
            DateNow now; SetTimeout 500;
            Fetch "/api/resume/enhance"
              (SectionBody (summary (formValues r)) "summary");
            DateNow now';
            ConsoleError "AI improvement error:" typeError;
            ConsoleError "Error improving summary:" typeError;
            Toast toastError
              (Js.or_else typeError
                 "Failed to improve summary. Please try again.")]
         /\ errorToasts (log x) = 1%nat
         /\ formValues (store x) = formValues s
         /\ lastEnhancementTime (store x) = now'
         /\ isImprovingSummary (store x) = false).
Proof.
  intros T G. split.
  - intros resp F x m. subst x m.
    rewrite handleImproveSummary_run by exact T.
    rewrite improveWithAI_failure_run by assumption.
    cbn [wrapImprove completion store log].
    destruct (is429 resp); repeat split.
  - intros typeError x. subst x.
    rewrite handleImproveSummary_run by exact T.
    rewrite improveWithAI_null by exact G.
    cbn [wrapImprove completion store log]. repeat split.
Qed.

(** X10. A successful improvement of the summary, outside the cooldown: the
    text sent is the summary of the render that started the request; the
    answer, when it is not empty, replaces the summary in the store as it
    is when the request completes, with every other field of it kept; an
    empty or missing answer is dropped without any toast; in both cases the
    clock reading taken after the request becomes the timestamp. *)
Theorem handleImproveSummary_success now content now' (r s : St) :
  Js.truthy (summary (formValues r)) = true ->
  cooldown <= now - lastEnhancementTime r ->
  let x := handleImproveSummary now (Ok (Normal content)) now' r s in
  let sent :=
    [Toast toastInfo "Improving your summary... This may take a moment.";
     DateNow now; SetTimeout 500;
     Fetch "/api/resume/enhance"
       (SectionBody (summary (formValues r)) "summary");
     DateNow now'] in
  lastEnhancementTime (store x) = now'
  /\ previewContent (store x) = previewContent s
  /\ isImprovingSummary (store x) = false
  /\ (forall text,
         content = Some text -> text <> "" ->
         formValues (store x) = writeField (WSummary text) (formValues s)
         /\ log x
            = (sent ++ [Toast toastSuccess "Summary improved successfully!"])%list)
  /\ (Js.truthy_opt content = false ->
      formValues (store x) = formValues s /\ log x = sent).
Proof.
  intros T G x sent. subst x sent.
  rewrite handleImproveSummary_run by exact T.
  rewrite improveWithAI_succeeds by exact G.
  cbn [wrapImprove].
  destruct content as [t|]; [destruct (Js.truthy t) eqn:Tt|];
    cbn [completion store log];
    (split; [reflexivity|]); (split; [reflexivity|]);
    (split; [reflexivity|]); split.
  - intros text E N. injection E as <-. split; reflexivity.
  - cbn [Js.truthy_opt]. rewrite Tt. discriminate.
  - intros text E N. injection E as <-.
    apply truthy_true in N. congruence.
  - intros _. split; reflexivity.
  - intros text E. discriminate E.
  - intros _. split; reflexivity.
Qed.

(** *** Failed whole-document enhancements and uploads *)

(** X11. A whole-document enhancement that got no content (the request
    failed, or the body is [null] and the read of [data.content] throws
    before anything is written), for a form that has content: the request
    was sent once, the form values, the displayed
    text and the timestamp stay, the in-flight flag is reset, and one error
    toast is shown.  The toast is the rate-limit one exactly when the
    message of the error contains "429" or "Too Many Requests"; the message
    is the body of the answer (or "Failed to enhance resume" for an empty
    body), so the status code of the answer plays no part. *)
Theorem handleEnhanceResume_failure (resp : Response Content) (r s : St) :
  hasContent (formValues r) = true ->
  failed resp = true ->
  let x := handleEnhanceResume resp r s in
  let m := requestError "Failed to enhance resume" resp in
  log x
  = [Toast toastInfo enhanceInfo;
     Fetch "/api/resume/enhance" (FormBody (formValues r));
     ConsoleError "Enhancement error:" m;
     Toast toastError
       (if Js.includes m "429" || Js.includes m "Too Many Requests"
        then "Rate limit exceeded. Please try again in a minute."
        else Js.or_else m
               "Failed to enhance resume. Please try again later.")]
  /\ store x = setIsEnhancing false (setIsEnhancing true s)
  /\ formValues (store x) = formValues s
  /\ previewContent (store x) = previewContent s
  /\ lastEnhancementTime (store x) = lastEnhancementTime s
  /\ isEnhancing (store x) = false
  /\ (forall status status' text,
         resp = NotOk status text ->
         handleEnhanceResume (NotOk status' text) r s = x).
Proof.
  intros H F x m. unfold hasContent in H.
  assert (E : x
              = {| completion := Normal tt;
                   store := setIsEnhancing false (setIsEnhancing true s);
                   log :=
                     [Toast toastInfo enhanceInfo;
                      Fetch "/api/resume/enhance" (FormBody (formValues r));
                      ConsoleError "Enhancement error:" m;
                      Toast toastError
                        (if Js.includes m "429"
                            || Js.includes m "Too Many Requests"
                         then "Rate limit exceeded. Please try again in a minute."
                         else Js.or_else m
                                "Failed to enhance resume. Please try again later.")]
                |}).
  { subst x m. unfold handleEnhanceResume, bind at 1, read at 1.
    rewrite <- !negb_orb, H. cbn [negb].
    destruct resp as [e | status [t | e] | [c | e] | e];
      try discriminate F; cbn [requestError]; run_handler;
      match goal with
      | |- context [Js.includes ?a "429"] =>
          destruct (Js.includes a "429");
          destruct (Js.includes a "Too Many Requests")
      end; reflexivity. }
  rewrite E. cbn [log store]. repeat split.
  intros status status' text R. rewrite <- E. subst x resp. reflexivity.
Qed.

(** X12. The upload stands outside the cooldown: it never reads the clock and
    never changes the timestamp, whatever the answer; without a file
    nothing happens at all, and with a file the request is sent.  When the
    request fails or the body is [null], the form values and the displayed text stay
    and one error toast shows the message of the error, or "Failed to upload
    resume" when it is empty. *)
Theorem handleFileUpload_outside_cooldown
  (file : bool) (resp : Response Content) (r s : St) :
  let x := handleFileUpload file resp r s in
  consultsCooldown (log x) = false
  /\ lastEnhancementTime (store x) = lastEnhancementTime s
  /\ callsCollaborator (log x) = file
  /\ (file = false -> store x = s /\ log x = [])
  /\ (file = true -> failed resp = true ->
      log x
      = [Fetch "/api/resume/upload" FileBody;
         ConsoleError "Upload error:"
           (requestError "Failed to upload resume" resp);
         Toast toastError
           (Js.or_else (requestError "Failed to upload resume" resp)
              "Failed to upload resume")]
      /\ formValues (store x) = formValues s
      /\ previewContent (store x) = previewContent s
      /\ isUploading (store x) = false).
Proof.
  intros x. subst x.
  split; [|split; [apply handleFileUpload_lastEnhancementTime|split; [|split]]].
  - destruct file; [|reflexivity].
    destruct resp as [e | status [t | e] | [[c|] | e] | e];
      try reflexivity.
    rewrite handleFileUpload_content. reflexivity.
  - destruct file; [|reflexivity].
    destruct (content_or_not resp) as [[c ->] | N].
    + rewrite handleFileUpload_content. reflexivity.
    + destruct (handleFileUpload_other resp r s N) as [l ->]. reflexivity.
  - intros ->. split; reflexivity.
  - intros -> F.
    destruct resp as [e | status [t | e] | [c | e] | e];
      try discriminate F; repeat split.
Qed.

(** *** When the projection is empty *)

Lemma concat_truthy (sep : string) (l : list string) :
  (forall x, In x l -> Js.truthy x = true) ->
  String.concat sep l = "" -> l = [].
Proof.
  destruct l as [|x l]; [reflexivity|].
  intros H E. exfalso.
  specialize (H x (or_introl eq_refl)).
  destruct x as [|c x]; [discriminate H|].
  cbn [String.concat] in E. destruct l; discriminate E.
Qed.

Lemma filter_truthy_nil (l : list string) :
  filter Js.truthy l = [] -> forall x, In x l -> x = "".
Proof.
  induction l as [|y l IH]; intros E x I; [destruct I|].
  cbn [filter] in E. destruct (Js.truthy y) eqn:T; [discriminate E|].
  destruct I as [<- | I]; [apply truthy_false, T | apply IH; assumption].
Qed.

Lemma and_then_empty (a b : string) :
  Js.truthy b = true -> Js.and_then a b = "" -> a = "".
Proof.
  unfold Js.and_then. destruct a as [|c a]; [reflexivity|].
  cbn [Js.truthy]. intros T ->. discriminate T.
Qed.

Lemma getContactMarkdown_empty_iff (r : St) :
  getContactMarkdown r = ""
  <-> Js.truthy_opt (name (contactInfo (formValues r))) = false
      /\ Js.truthy_opt (email (contactInfo (formValues r))) = false
      /\ Js.truthy_opt (mobile (contactInfo (formValues r))) = false
      /\ Js.truthy_opt (linkedin (contactInfo (formValues r))) = false
      /\ Js.truthy_opt (twitter (contactInfo (formValues r))) = false.
Proof.
  unfold getContactMarkdown.
  destruct (contactInfo (formValues r))
    as [[[|? ?]|] [[|? ?]|] [[|? ?]|] [[|? ?]|] [[|? ?]|]];
    cbn [name email mobile linkedin twitter pushIf Js.truthy Js.truthy_opt
         app List.length];
    split; intros H; try discriminate H;
    try (decompose [and] H; discriminate);
    repeat split.
Qed.

(** X13. The projection is the empty string exactly when every section is: no
    contact field is set, the summary and the skills are empty, and the
    helper renders each of the three entry lists as the empty string.  So
    this is exactly when the form tab falls back to the saved markdown. *)
Theorem getCombinedContent_empty_iff (r : St) :
  (getCombinedContent r = ""
   <-> (Js.truthy_opt (name (contactInfo (formValues r))) = false
        /\ Js.truthy_opt (email (contactInfo (formValues r))) = false
        /\ Js.truthy_opt (mobile (contactInfo (formValues r))) = false
        /\ Js.truthy_opt (linkedin (contactInfo (formValues r))) = false
        /\ Js.truthy_opt (twitter (contactInfo (formValues r))) = false)
       /\ summary (formValues r) = ""
       /\ skills (formValues r) = ""
       /\ entriesToMarkdown (experience (formValues r)) "Work Experience" = ""
       /\ entriesToMarkdown (education (formValues r)) "Education" = ""
       /\ entriesToMarkdown (projects (formValues r)) "Projects" = "")
  /\ (projected r = initialContent
      <-> getCombinedContent r = ""
          \/ initialContent = Some (getCombinedContent r)).
Proof.
  split.
  - rewrite <- getContactMarkdown_empty_iff. unfold getCombinedContent.
    split.
    + intros E. apply concat_truthy in E.
      * pose proof (filter_truthy_nil _ E) as Z.
        repeat split.
        -- apply Z. cbn. auto.
        -- apply (and_then_empty _
                    ("## Professional Summary" ++ Js.nl ++ Js.nl
                     ++ summary (formValues r)));
             [reflexivity | apply Z; cbn; auto].
        -- apply (and_then_empty _
                    ("## Skills" ++ Js.nl ++ Js.nl ++ skills (formValues r)));
             [reflexivity | apply Z; cbn; auto].
        -- apply Z. cbn. auto 6.
        -- apply Z. cbn. auto 7.
        -- apply Z. cbn. auto 8.
      * intros x I. apply filter_In in I. apply I.
    + intros (C & S & K & X & D & P).
      rewrite C, S, K, X, D, P. reflexivity.
  - unfold projected. destruct (getCombinedContent r) as [|c p] eqn:E.
    + cbn [Js.truthy]. split; auto.
    + cbn [Js.truthy]. split.
      * intros H. right. symmetry. exact H.
      * intros [H | H]; [discriminate H | symmetry; exact H].
Qed.

(** *** Deleting the resume *)

(** X14. A deletion that succeeded empties the form and clears the score and
    the feedback; the timestamp of the cooldown stays.  The displayed text
    is then the empty string in the markdown tab, but in the form tab the
    next render puts the saved markdown the component was opened with back
    on display.  A deletion that failed changes nothing and shows one error
    toast. *)
Theorem handleDelete_resets (p : Page) :
  (let p' := fst (dispatchDelete (Normal tt) p) in
   formValues (component p') = defaultValues
   /\ atsScore p' = None /\ atsFeedback p' = None
   /\ lastEnhancementTime (component p')
      = lastEnhancementTime (component p)
   /\ activeTab (component p') = activeTab (component p)
   /\ (activeTab (component p) = preview ->
       previewContent (component p') = Some "")
   /\ (activeTab (component p) = edit ->
       previewContent (component p') = initialContent)
   /\ snd (dispatchDelete (Normal tt) p)
      = [Toast toastSuccess "Resume deleted successfully!"])
  /\ (forall error,
         activeTab (component p) = preview ->
         dispatchDelete (Throw error) p
         = (p, [ConsoleError "Delete error:" error;
                Toast toastError "Failed to delete resume"])).
Proof.
  split.
  - unfold dispatchDelete, handleDelete. cbn [fst snd component atsScore
                                                atsFeedback].
    rewrite syncPreview_formValues, syncPreview_lastEnhancementTime,
      syncPreview_activeTab.
    repeat split.
    + intros T. rewrite syncPreview_preview by exact T. reflexivity.
    + intros T. rewrite syncPreview_edit by exact T.
      cbn [previewContent setPreviewContent]. unfold projected.
      rewrite getCombinedContent_blank by reflexivity. reflexivity.
  - intros error T. unfold dispatchDelete, handleDelete.
    rewrite syncPreview_preview by exact T. destruct p; reflexivity.
Qed.

(** *** The text that is saved *)

Lemma tokens_flatten_aux (n : nat) :
  forall s, (String.length s <= n)%nat -> flatten (tokens s) = s.
Proof.
  induction n as [|n IH]; intros s L.
  - destruct s; [reflexivity | cbn in L; lia].
  - destruct s as [|a s1]; [reflexivity|].
    cbn [String.length] in L.
    cbn [tokens].
    destruct (byteCode a =? 10)%N eqn:E10.
    + cbn [flatten tokenText]. rewrite IH by lia.
      apply N.eqb_eq in E10. unfold byteCode in E10.
      assert (a = "010"%char).
      { rewrite <- (ascii_N_embedding a), E10. reflexivity. }
      subst a. reflexivity.
    + destruct (space1 a).
      * cbn [flatten tokenText]. rewrite IH by lia. reflexivity.
      * destruct s1 as [|b s2].
        -- reflexivity.
        -- cbn [String.length] in L.
           destruct (space2 a b).
           ++ cbn [flatten tokenText]. rewrite IH by lia. reflexivity.
           ++ destruct s2 as [|c s3].
              ** cbn [flatten tokenText]. rewrite (IH (String b "")) by (cbn; lia).
                 reflexivity.
              ** cbn [String.length] in L. destruct (space3 a b c).
                 --- cbn [flatten tokenText]. rewrite IH by lia. reflexivity.
                 --- cbn [flatten tokenText].
                     rewrite (IH (String b (String c s3))) by (cbn; lia).
                     reflexivity.
Qed.

Lemma tokens_flatten (s : string) : flatten (tokens s) = s.
Proof. apply (tokens_flatten_aux (String.length s)). lia. Qed.

Lemma afterLastNl_length (l r : list Tok) :
  afterLastNl l = Some r -> (List.length r < List.length l)%nat.
Proof.
  revert r. induction l as [|t l IH]; intros r H; [discriminate H|].
  destruct t as [| bytes | b]; cbn [afterLastNl] in H.
  - destruct (afterLastNl l) as [r'|].
    + injection H as <-. specialize (IH r' eq_refl). cbn. lia.
    + injection H as <-. cbn. lia.
  - specialize (IH r H). cbn. lia.
  - discriminate H.
Qed.

Lemma collapseFuel_enough (n m : nat) :
  forall l, (List.length l <= n)%nat -> (List.length l <= m)%nat ->
            collapseFuel n l = collapseFuel m l.
Proof.
  revert m. induction n as [|n IH]; intros m l Ln Lm.
  - destruct l; [|cbn in Ln; lia]. destruct m; reflexivity.
  - destruct m as [|m]; [destruct l; [reflexivity | cbn in Lm; lia]|].
    destruct l as [|t l]; [reflexivity|].
    cbn [List.length] in Ln, Lm. cbn [collapseFuel].
    destruct t as [| bytes | b].
    + destruct (afterLastNl l) as [r|] eqn:E.
      * apply afterLastNl_length in E.
        rewrite (IH m r) by lia. reflexivity.
      * rewrite (IH m l) by lia. reflexivity.
    + rewrite (IH m l) by lia. reflexivity.
    + rewrite (IH m l) by lia. reflexivity.
Qed.

Lemma collapse_nil : collapse [] = [].
Proof. reflexivity. Qed.

Lemma collapse_Nl (l : list Tok) :
  collapse (Nl :: l)
  = match afterLastNl l with
    | Some r => Nl :: Nl :: collapse r
    | None => Nl :: collapse l
    end.
Proof.
  unfold collapse. cbn [List.length collapseFuel].
  destruct (afterLastNl l) as [r|] eqn:E; [|reflexivity].
  apply afterLastNl_length in E.
  rewrite (collapseFuel_enough (List.length l) (List.length r)) by lia.
  reflexivity.
Qed.

Lemma collapse_Ws (bytes : string) (l : list Tok) :
  collapse (Ws bytes :: l) = Ws bytes :: collapse l.
Proof. reflexivity. Qed.

Lemma collapse_Ch (b : ascii) (l : list Tok) :
  collapse (Ch b :: l) = Ch b :: collapse l.
Proof. reflexivity. Qed.

(** Induction along the way [collapse] walks through a tokenText. *)
Lemma collapse_ind (P : list Tok -> Prop) :
  P [] ->
  (forall l r, afterLastNl l = Some r -> P r -> P (Nl :: l)) ->
  (forall l, afterLastNl l = None -> P l -> P (Nl :: l)) ->
  (forall bytes l, P l -> P (Ws bytes :: l)) ->
  (forall b l, P l -> P (Ch b :: l)) ->
  forall l, P l.
Proof.
  intros H0 H1 H2 H3 H4 l.
  assert (A : forall n l, (List.length l <= n)%nat -> P l).
  { clear l. induction n as [|n IH]; intros l L.
    - destruct l; [exact H0 | cbn in L; lia].
    - destruct l as [|t l]; [exact H0|]. cbn [List.length] in L.
      destruct t as [| bytes | b].
      + destruct (afterLastNl l) as [r|] eqn:E.
        * apply (H1 l r E). apply IH.
          apply afterLastNl_length in E. lia.
        * apply (H2 l E). apply IH. lia.
      + apply H3, IH. lia.
      + apply H4, IH. lia. }
  apply (A (List.length l)). lia.
Qed.

Lemma visible_cons (t : Tok) (l : list Tok) :
  visible (t :: l) = if isWhite t then visible l else t :: visible l.
Proof. unfold visible. cbn [filter]. destruct (isWhite t); reflexivity. Qed.

Lemma afterLastNl_visible (l r : list Tok) :
  afterLastNl l = Some r -> visible r = visible l.
Proof.
  revert r. induction l as [|t l IH]; intros r H; [discriminate H|].
  destruct t as [| bytes | b]; cbn [afterLastNl] in H.
  - destruct (afterLastNl l) as [r'|].
    + injection H as <-. rewrite visible_cons. cbn [isWhite].
      apply IH. reflexivity.
    + injection H as <-. rewrite visible_cons. reflexivity.
  - rewrite visible_cons. cbn [isWhite]. apply IH, H.
  - discriminate H.
Qed.

Lemma collapse_visible (l : list Tok) : visible (collapse l) = visible l.
Proof.
  induction l as [| l r E IH | l E IH | bytes l IH | b l IH]
    using collapse_ind.
  - reflexivity.
  - rewrite collapse_Nl, E, !visible_cons. cbn [isWhite]. rewrite IH.
    apply afterLastNl_visible, E.
  - rewrite collapse_Nl, E, !visible_cons. cbn [isWhite]. exact IH.
  - rewrite collapse_Ws, !visible_cons. cbn [isWhite]. exact IH.
  - rewrite collapse_Ch, !visible_cons. cbn [isWhite]. rewrite IH.
    reflexivity.
Qed.

Lemma trimStart_visible (l : list Tok) : visible (trimStart l) = visible l.
Proof.
  induction l as [|t l IH]; [reflexivity|].
  cbn [trimStart]. destruct (isWhite t) eqn:W; [|reflexivity].
  rewrite IH, visible_cons, W. reflexivity.
Qed.

Lemma visible_rev (l : list Tok) : visible (rev l) = rev (visible l).
Proof.
  unfold visible. induction l as [|t l IH]; [reflexivity|].
  cbn [rev filter]. rewrite filter_app, IH. cbn [filter].
  destruct (negb (isWhite t)); cbn [rev]; [reflexivity|].
  rewrite app_nil_r. reflexivity.
Qed.

Lemma trimEnd_visible (l : list Tok) : visible (trimEnd l) = visible l.
Proof.
  unfold trimEnd. rewrite visible_rev, trimStart_visible, visible_rev.
  apply rev_involutive.
Qed.

Lemma formatTokens_visible (l : list Tok) :
  visible (formatTokens l) = visible l.
Proof.
  unfold formatTokens, trim.
  rewrite trimEnd_visible, trimStart_visible. apply collapse_visible.
Qed.

Lemma afterLastNl_runHasNl (l : list Tok) :
  runHasNl l = false <-> afterLastNl l = None.
Proof.
  induction l as [|t l IH]; [split; reflexivity|].
  destruct t as [| bytes | b]; cbn [runHasNl afterLastNl].
  - split; [discriminate|]. destruct (afterLastNl l); discriminate.
  - exact IH.
  - split; reflexivity.
Qed.

Lemma afterLastNl_rest (l r : list Tok) :
  afterLastNl l = Some r -> runHasNl r = false.
Proof.
  revert r. induction l as [|t l IH]; intros r H; [discriminate H|].
  destruct t as [| bytes | b]; cbn [afterLastNl] in H.
  - destruct (afterLastNl l) as [r'|] eqn:E.
    + injection H as <-. apply IH. reflexivity.
    + injection H as <-. apply afterLastNl_runHasNl, E.
  - apply IH, H.
  - discriminate H.
Qed.

Lemma collapse_runHasNl (l : list Tok) :
  runHasNl (collapse l) = runHasNl l.
Proof.
  induction l as [|t l IH]; [reflexivity|].
  destruct t as [| bytes | b].
  - rewrite collapse_Nl. destruct (afterLastNl l); reflexivity.
  - rewrite collapse_Ws. exact IH.
  - reflexivity.
Qed.

Lemma okAfter_noNl (l : list Tok) : runHasNl l = false -> okAfter l = true.
Proof.
  destruct l as [|[| bytes | b] l]; cbn [runHasNl okAfter]; intros H;
    try rewrite H; try reflexivity; discriminate H.
Qed.

Lemma collapse_tight (l : list Tok) : tight (collapse l) = true.
Proof.
  induction l as [| l r E IH | l E IH | bytes l IH | b l IH]
    using collapse_ind.
  - reflexivity.
  - rewrite collapse_Nl, E. cbn [tight okAfter].
    pose proof (afterLastNl_rest l r E) as R.
    rewrite <- collapse_runHasNl in R.
    rewrite R, (okAfter_noNl _ R), IH. reflexivity.
  - rewrite collapse_Nl, E. cbn [tight].
    apply afterLastNl_runHasNl in E. rewrite <- collapse_runHasNl in E.
    rewrite (okAfter_noNl _ E), IH. reflexivity.
  - rewrite collapse_Ws. exact IH.
  - rewrite collapse_Ch. exact IH.
Qed.

Lemma tight_tail (t : Tok) (l : list Tok) :
  tight (t :: l) = true -> tight l = true.
Proof.
  destruct t; cbn [tight]; intros H; [|exact H|exact H].
  apply andb_prop in H. apply H.
Qed.

Lemma tight_collapse (l : list Tok) : tight l = true -> collapse l = l.
Proof.
  induction l as [| l r E IH | l E IH | bytes l IH | b l IH]
    using collapse_ind; intros T.
  - reflexivity.
  - rewrite collapse_Nl, E.
    cbn [tight] in T. apply andb_prop in T. destruct T as [O T].
    destruct l as [|[| bytes | b] l'].
    + discriminate E.
    + cbn [okAfter] in O. apply negb_true_iff in O.
      cbn [afterLastNl] in E.
      rewrite (proj1 (afterLastNl_runHasNl l') O) in E.
      injection E as <-.
      rewrite IH by (apply (tight_tail Nl), T). reflexivity.
    + cbn [okAfter] in O. apply negb_true_iff in O.
      apply afterLastNl_runHasNl in O. congruence.
    + discriminate E.
  - rewrite collapse_Nl, E. rewrite IH by (apply (tight_tail Nl), T).
    reflexivity.
  - rewrite collapse_Ws, IH by exact T. reflexivity.
  - rewrite collapse_Ch, IH by exact T. reflexivity.
Qed.

Lemma trimStart_tight (l : list Tok) :
  tight l = true -> tight (trimStart l) = true.
Proof.
  induction l as [|t l IH]; intros T; [reflexivity|].
  cbn [trimStart]. destruct (isWhite t); [|exact T].
  apply IH, (tight_tail t), T.
Qed.

Lemma runHasNl_prefix (l1 l2 : list Tok) :
  runHasNl (l1 ++ l2)%list = false -> runHasNl l1 = false.
Proof.
  induction l1 as [|[| bytes | b] l1 IH]; cbn [app runHasNl]; intros H;
    try reflexivity; [discriminate H | apply IH, H].
Qed.

Lemma okAfter_prefix (l1 l2 : list Tok) :
  okAfter (l1 ++ l2)%list = true -> okAfter l1 = true.
Proof.
  destruct l1 as [|[| bytes | b] l1]; cbn [app okAfter runHasNl];
    intros H; try reflexivity;
    apply negb_true_iff in H; apply negb_true_iff;
    apply (runHasNl_prefix _ l2), H.
Qed.

Lemma tight_prefix (l1 l2 : list Tok) :
  tight (l1 ++ l2)%list = true -> tight l1 = true.
Proof.
  induction l1 as [|[| bytes | b] l1 IH]; cbn [app tight]; intros H;
    try reflexivity; try (apply IH, H).
  apply andb_prop in H. destruct H as [O T].
  rewrite (okAfter_prefix _ _ O), (IH T). reflexivity.
Qed.

Lemma trimStart_suffix (l : list Tok) :
  exists w, l = (w ++ trimStart l)%list.
Proof.
  induction l as [|t l [w IH]]; [exists []; reflexivity|].
  cbn [trimStart]. destruct (isWhite t).
  - exists (t :: w). cbn [app]. rewrite <- IH. reflexivity.
  - exists []. reflexivity.
Qed.

Lemma trimEnd_prefix (l : list Tok) :
  exists w, l = (trimEnd l ++ w)%list.
Proof.
  unfold trimEnd. destruct (trimStart_suffix (rev l)) as [w E].
  exists (rev w). rewrite <- rev_app_distr, <- E, rev_involutive.
  reflexivity.
Qed.

Lemma trimEnd_tight (l : list Tok) :
  tight l = true -> tight (trimEnd l) = true.
Proof.
  intros T. destruct (trimEnd_prefix l) as [w E].
  rewrite E in T. apply (tight_prefix _ w), T.
Qed.

Lemma trimStart_startsWhite (l : list Tok) :
  startsWhite (trimStart l) = false.
Proof.
  induction l as [|t l IH]; [reflexivity|].
  cbn [trimStart]. destruct (isWhite t) eqn:W; [exact IH | exact W].
Qed.

Lemma trimStart_fixed (l : list Tok) :
  startsWhite l = false -> trimStart l = l.
Proof.
  destruct l as [|t l]; [reflexivity|]. cbn. intros ->. reflexivity.
Qed.

Lemma trimStart_snoc (l : list Tok) (t : Tok) :
  isWhite t = false ->
  trimStart (l ++ [t])%list = (trimStart l ++ [t])%list.
Proof.
  intros W. induction l as [|u l IH]; cbn [app trimStart].
  - rewrite W. reflexivity.
  - destruct (isWhite u); [exact IH | reflexivity].
Qed.

Lemma trimEnd_startsWhite (l : list Tok) :
  startsWhite l = false -> startsWhite (trimEnd l) = false.
Proof.
  destruct l as [|t l]; [reflexivity|]. cbn [startsWhite]. intros W.
  unfold trimEnd. cbn [rev]. rewrite trimStart_snoc by exact W.
  rewrite rev_app_distr. cbn [rev app]. exact W.
Qed.

Lemma trim_ends (l : list Tok) :
  startsWhite (trim l) = false /\ startsWhite (rev (trim l)) = false.
Proof.
  unfold trim. split.
  - apply trimEnd_startsWhite, trimStart_startsWhite.
  - unfold trimEnd. rewrite rev_involutive. apply trimStart_startsWhite.
Qed.

Lemma trim_fixed (l : list Tok) :
  startsWhite l = false -> startsWhite (rev l) = false -> trim l = l.
Proof.
  intros H1 H2. unfold trim, trimEnd.
  rewrite (trimStart_fixed l H1), (trimStart_fixed _ H2).
  apply rev_involutive.
Qed.

Lemma formatTokens_tight (l : list Tok) : tight (formatTokens l) = true.
Proof.
  unfold formatTokens, trim.
  apply trimEnd_tight, trimStart_tight, collapse_tight.
Qed.

Lemma formatTokens_fixed (l : list Tok) :
  tight l = true -> startsWhite l = false -> startsWhite (rev l) = false ->
  formatTokens l = l.
Proof.
  intros T H1 H2. unfold formatTokens.
  rewrite (tight_collapse l T). apply trim_fixed; assumption.
Qed.

Lemma formatTokens_idempotent (l : list Tok) :
  formatTokens (formatTokens l) = formatTokens l.
Proof.
  apply formatTokens_fixed.
  - apply formatTokens_tight.
  - apply trim_ends.
  - apply trim_ends.
Qed.

(** X15. Formatting the text to save touches white space only: the characters
    that are not white space are the same, in the same order, before and
    after; and reading a text as characters loses nothing of it. *)
Theorem formatContent_keeps_visible_text (s : string) :
  flatten (tokens s) = s
  /\ visible (formatTokens (tokens s)) = visible (tokens s).
Proof. split; [apply tokens_flatten | apply formatTokens_visible]. Qed.

(** X16. The formatted text is tight (no white-space-only line and no more than
    one empty line in a row), it neither starts nor ends with a white-space
    character, and formatting it again changes nothing. *)
Theorem formatTokens_shape (l : list Tok) :
  tight (formatTokens l) = true
  /\ startsWhite (formatTokens l) = false
  /\ startsWhite (rev (formatTokens l)) = false
  /\ formatTokens (formatTokens l) = formatTokens l.
Proof.
  split; [apply formatTokens_tight|].
  split; [apply trim_ends|]. split; [apply trim_ends|].
  apply formatTokens_idempotent.
Qed.

(** X17. A text that is tight already and has no white space at either end is
    saved as it is. *)
Theorem formatContent_fixed (s : string) :
  tight (tokens s) = true ->
  startsWhite (tokens s) = false ->
  startsWhite (rev (tokens s)) = false ->
  formatContent s = s.
Proof.
  intros T H1 H2. unfold formatContent.
  rewrite formatTokens_fixed by assumption. apply tokens_flatten.
Qed.

(** X18. What is saved is the displayed text, formatted: in the form tab, after
    any action, the formatted projection of the form values as they are now
    (when that projection is not empty); in the markdown tab, after an edit
    in the editor, the formatted text of the editor, whatever the form holds;
    an error of the save is logged after the request.  With no displayed
    text at all nothing is saved and the error is logged. *)
Theorem onSubmit_saves_displayed_text typeError saved :
  (forall (a : Action) (s : St),
      activeTab (store (dispatch a s)) = edit ->
      getCombinedContent (store (dispatch a s)) <> "" ->
      onSubmit typeError saved (store (dispatch a s))
      = SaveResumeFn
          (formatContent (getCombinedContent (store (dispatch a s))))
        :: match saved with
           | Normal _ => []
           | Throw error => [SaveError error]
           end)
  /\ (forall (content : string) (s : St),
         activeTab s = preview ->
         onSubmit typeError saved
           (store (dispatch (EditMarkdown (Some content)) s))
         = SaveResumeFn (formatContent content)
           :: match saved with
              | Normal _ => []
              | Throw error => [SaveError error]
              end)
  /\ (forall r : St,
         previewContent r = None ->
         onSubmit typeError saved r = [SaveError typeError]).
Proof.
  split; [|split].
  - intros a s T N. unfold onSubmit.
    assert (E : previewContent (store (dispatch a s))
                = Some (getCombinedContent (store (dispatch a s)))).
    { unfold dispatch in *. cbn [store] in *.
      rewrite syncPreview_activeTab in T.
      rewrite syncPreview_edit by exact T. cbn [previewContent].
      rewrite (getCombinedContent_formValues _ (store (handler a s s)))
        by reflexivity.
      unfold projected.
      rewrite truthy_true; [reflexivity|].
      rewrite (getCombinedContent_formValues _ (store (handler a s s))) in N
        by (rewrite syncPreview_formValues; reflexivity).
      exact N. }
    rewrite E. reflexivity.
  - intros content s T. rewrite dispatch_EditMarkdown by exact T.
    reflexivity.
  - intros r E. unfold onSubmit. rewrite E. reflexivity.
Qed.

End ResumeBuilder.

(** ** The properties at work

    The helper is instantiated with [specEntriesToMarkdown]. *)

Lemma specEntriesToMarkdown_nil :
  forall type, specEntriesToMarkdown [] type = "".
Proof. intros type. reflexivity. Defined.

(** Two renders with the same form values and nothing else in common. *)
Lemma getCombinedContent_deterministic_witness :
  formValues (stateOf edit None 0 sampleForm)
  = formValues (stateOf preview (Some "X") 1700000000000 sampleForm)
  /\ getCombinedContent specEntriesToMarkdown (stateOf edit None 0 sampleForm)
     = getCombinedContent specEntriesToMarkdown
         (stateOf preview (Some "X") 1700000000000 sampleForm).
Proof.
  split; [reflexivity|].
  apply (proj1 (getCombinedContent_deterministic None specEntriesToMarkdown)).
  reflexivity.
Defined.

Lemma getCombinedContent_name_only_witness :
  getCombinedContent specEntriesToMarkdown (stateOf edit None 0 anaForm)
  = "## Contact Information" ++ Js.nl ++ Js.nl ++ "**Ana**"
  /\ getCombinedContent specEntriesToMarkdown (stateOf edit None 0 anaForm)
     = getContactMarkdown (stateOf edit None 0 anaForm).
Proof.
  apply (getCombinedContent_name_only specEntriesToMarkdown
           specEntriesToMarkdown_nil (stateOf edit None 0 anaForm));
    reflexivity.
Defined.

Lemma syncPreview_falls_back_witness :
  previewContent
    (syncPreview (Some "# Saved") specEntriesToMarkdown
       (stateOf edit (Some "stale") 0 defaultValues))
  = Some "# Saved".
Proof.
  apply (syncPreview_falls_back (Some "# Saved") specEntriesToMarkdown
           specEntriesToMarkdown_nil
           (stateOf edit (Some "stale") 0 defaultValues) "# Saved");
    try reflexivity.
  discriminate.
Defined.

Lemma improveWithAI_within_cooldown_witness :
  completion
    (improveWithAI 1700000030500 (Ok (Normal (Some "Better"))) 1700000031000
       "Old" "summary"
       (stateOf edit None 1700000000000 sampleForm)
       (stateOf edit None 1700000000000 sampleForm))
  = Normal None
  /\ log
       (improveWithAI 1700000030500 (Ok (Normal (Some "Better")))
          1700000031000 "Old" "summary"
          (stateOf edit None 1700000000000 sampleForm)
          (stateOf edit None 1700000000000 sampleForm))
     = [DateNow 1700000030500;
        Toast toastError "Please wait 30 seconds before trying again."].
Proof.
  destruct (proj1 (improveWithAI_within_cooldown None specEntriesToMarkdown)
              1700000030500 (Ok (Normal (Some "Better"))) 1700000031000
              "Old" "summary"
              (stateOf edit None 1700000000000 sampleForm)
              (stateOf edit None 1700000000000 sampleForm))
    as (C & _ & L & _).
  - reflexivity.
  - split; [exact C | exact L].
Defined.


Lemma empty_input_is_refused_first_witness :
  log
    (handleImproveSummary 1700000090000 (Ok (Normal (Some "Better")))
       1700000091000
       (stateOf edit None 0 anaForm) (stateOf edit None 0 anaForm))
  = [Toast toastError "Please enter a summary first"]
  /\ log
       (handleEnhanceResume specEntriesToMarkdown
          (Ok (Normal (Some newSummaryAndSkills)))
          (stateOf edit None 0 anaForm) (stateOf edit None 0 anaForm))
     = [Toast toastError "Please add some content to your resume first"].
Proof.
  destruct (empty_input_is_refused_first specEntriesToMarkdown)
    as (A & _ & B).
  destruct (A 1700000090000 (Ok (Normal (Some "Better"))) 1700000091000
              (stateOf edit None 0 anaForm) (stateOf edit None 0 anaForm))
    as (_ & _ & LA & _); [reflexivity|].
  destruct (B (Ok (Normal (Some newSummaryAndSkills)))
              (stateOf edit None 0 anaForm) (stateOf edit None 0 anaForm))
    as (_ & _ & LB & _); [reflexivity | reflexivity | reflexivity |].
  split; [exact LA | exact LB].
Defined.

(** A response with a new summary and new skills and without education,
    applied to a form that has an education entry. *)
Lemma enhance_merges_nonempty_fields_witness :
  hasContent sampleForm = true
  /\ formValues
       (store
          (handleEnhanceResume specEntriesToMarkdown
             (Ok (Normal (Some newSummaryAndSkills)))
             (stateOf edit None 0 sampleForm)
             (stateOf edit None 0 sampleForm)))
     = {| contactInfo := anaContact; summary := "New"; skills := "Proofs";
          experience := []; education := [sampleEntry]; projects := [] |}.
Proof.
  split; [reflexivity|].
  destruct (enhance_merges_nonempty_fields specEntriesToMarkdown
              newSummaryAndSkills (stateOf edit None 0 sampleForm)
              (stateOf edit None 0 sampleForm))
    as (E & _).
  - reflexivity.
  - rewrite E. reflexivity.
Defined.

(** The response carries a summary, the empty string; the summary of the
    form is not overwritten with it. *)
Lemma enhance_keeps_summary_on_empty_string :
  ~ overwritesPresentFields emptySummary sampleForm
      (formValues
         (store
            (handleEnhanceResume specEntriesToMarkdown
               (Ok (Normal (Some emptySummary)))
               (stateOf edit None 0 sampleForm)
               (stateOf edit None 0 sampleForm)))).
Proof.
  intros (H & _). specialize (H "" eq_refl). discriminate H.
Qed.

Lemma empty_field_counts_as_absent_witness :
  summary
    (formValues
       (store
          (handleEnhanceResume specEntriesToMarkdown
             (Ok (Normal (Some emptySummary)))
             (stateOf edit None 0 sampleForm)
             (stateOf edit None 0 sampleForm))))
  = "Old"
  /\ projects
       (formValues
          (store
             (handleFileUpload specEntriesToMarkdown true
                (Ok (Normal (Some newSummaryAndSkills)))
                (stateOf edit None 0 sampleForm)
                (stateOf edit None 0 sampleForm))))
     = [].
Proof.
  destruct (empty_field_counts_as_absent specEntriesToMarkdown emptySummary
              true (stateOf edit None 0 sampleForm)
              (stateOf edit None 0 sampleForm))
    as (_ & _ & (A & _) & _).
  destruct (empty_field_counts_as_absent specEntriesToMarkdown
              newSummaryAndSkills true (stateOf edit None 0 sampleForm)
              (stateOf edit None 0 sampleForm))
    as (_ & _ & _ & (_ & _ & _ & _ & B)).
  split; [exact (A eq_refl) | exact (B eq_refl)].
Defined.

(** In the markdown tab, with the text "X" on display: a new summary typed
    into the form leaves "X"; a whole-document enhancement replaces it. *)
Lemma markdown_tab_writers_witness :
  previewContent
    (store
       (dispatch None specEntriesToMarkdown (Input (WSummary "Typed"))
          (stateOf preview (Some "X") 0 sampleForm)))
  = Some "X"
  /\ previewContent
       (store
          (dispatch None specEntriesToMarkdown
             (Enhance (Ok (Normal (Some newSummaryAndSkills))))
             (stateOf preview (Some "X") 0 sampleForm)))
     = Some (getCombinedContent specEntriesToMarkdown
               (stateOf preview (Some "X") 0 sampleForm)).
Proof.
  destruct (proj1 (markdown_tab_writers None specEntriesToMarkdown)
              (stateOf preview (Some "X") 0 sampleForm) eq_refl)
    as (A & _ & _ & B & _).
  split.
  - exact (proj1 (A (WSummary "Typed"))).
  - exact (proj1 (B newSummaryAndSkills eq_refl)).
Defined.

Lemma enhance_rewrites_markdown_tab :
  ~ keepsDisplayedText None specEntriesToMarkdown
      (Enhance (Ok (Normal (Some newSummaryAndSkills))))
      (stateOf preview (Some "X") 0 sampleForm).
Proof.
  intros H. specialize (H eq_refl eq_refl). discriminate H.
Qed.

(** C1, where the code departs from it. A summary is improved at clock
    reading 1700000000000 and the timestamp 1700000002000 is recorded.  One
    second later a second improvement is refused without a request, while a
    whole-document enhancement of the same state sends its request and does
    not read the clock; it does not record a timestamp either, so an
    improvement right after it is still measured from the old one. *)
Theorem enhance_skips_cooldown :
  let s0 := stateOf edit None 0 sampleForm in
  let first :=
    dispatch None specEntriesToMarkdown
      (ImproveSummary 1700000000000 (Ok (Normal (Some "Better")))
         1700000002000) s0 in
  let s1 := store first in
  let improve :=
    dispatch None specEntriesToMarkdown
      (ImproveSummary 1700000003000 (Ok (Normal (Some "Best")))
         1700000004000) s1 in
  let enhance :=
    dispatch None specEntriesToMarkdown
      (Enhance (Ok (Normal (Some newSummaryAndSkills)))) s1 in
  lastEnhancementTime s1 = 1700000002000
  /\ callsCollaborator (log improve) = false
  /\ callsCollaborator (log enhance) = true
  /\ consultsCooldown (log enhance) = false
  /\ log enhance
     = [Toast toastInfo enhanceInfo;
        Fetch "/api/resume/enhance" (FormBody (formValues s1));
        Toast toastSuccess "Resume enhanced successfully!"]
  /\ lastEnhancementTime (store enhance) = 1700000002000.
Proof. vm_compute. repeat split. Qed.

(** ** More properties at work *)

Lemma mounted_shows_saved_markdown_witness :
  previewContent (mounted (Some "# Saved") specEntriesToMarkdown)
  = Some "# Saved"
  /\ activeTab (mounted (Some "# Saved") specEntriesToMarkdown) = preview.
Proof.
  destruct (mounted_shows_saved_markdown (Some "# Saved")
              specEntriesToMarkdown specEntriesToMarkdown_nil)
    as (A & B & _).
  split; [exact A | exact B].
Defined.

Lemma form_tab_shows_projection_witness :
  previewContent
    (store
       (dispatch None specEntriesToMarkdown
          (Enhance (Ok (Normal (Some newSummaryAndSkills))))
          (stateOf edit None 0 sampleForm)))
  = projected None specEntriesToMarkdown
      (store
         (dispatch None specEntriesToMarkdown
            (Enhance (Ok (Normal (Some newSummaryAndSkills))))
            (stateOf edit None 0 sampleForm))).
Proof.
  apply (proj1 (form_tab_shows_projection None specEntriesToMarkdown)).
  reflexivity.
Defined.

Lemma tab_switch_reprojects_witness :
  previewContent
    (fst (session None specEntriesToMarkdown
            [EditMarkdown (Some "my own text"); SelectTab edit;
             SelectTab preview]
            (stateOf preview (Some "X") 0 sampleForm)))
  = projected None specEntriesToMarkdown
      (stateOf preview (Some "X") 0 sampleForm).
Proof.
  destruct (tab_switch_reprojects None specEntriesToMarkdown)
    as (_ & _ & _ & R).
  apply (R (Some "my own text") (stateOf preview (Some "X") 0 sampleForm)).
  reflexivity.
Defined.

Lemma form_change_shows_on_return_witness :
  formValues
    (fst (session None specEntriesToMarkdown
            [Input (WSummary "Typed"); SelectTab edit]
            (stateOf preview (Some "X") 0 sampleForm)))
  = writeField (WSummary "Typed") sampleForm.
Proof.
  destruct (form_change_shows_on_return None specEntriesToMarkdown
              (WSummary "Typed") (stateOf preview (Some "X") 0 sampleForm))
    as (_ & F & _).
  - reflexivity.
  - exact F.
Defined.

Lemma handlers_complete_and_settle_witness :
  idle
    (fst (session None specEntriesToMarkdown
            [ImproveSummary 1700000000000 (Rejected "offline") 1700000000100;
             Enhance (NotOk 500 (Normal ""));
             Upload true (Ok (Throw "Unexpected token"))]
            (stateOf edit None 0 sampleForm)))
  = true.
Proof.
  destruct (handlers_complete_and_settle None specEntriesToMarkdown)
    as (_ & _ & _ & S).
  apply S. reflexivity.
Defined.

Lemma sections_share_cooldown_witness :
  callsCollaborator
    (log
       (dispatch None specEntriesToMarkdown
          (ImproveSkills 1700000030000 (Ok (Normal (Some "More skills")))
             1700000031000)
          (store
             (dispatch None specEntriesToMarkdown
                (ImproveSummary 1700000000000 (Ok (Normal (Some "Better")))
                   1700000002000)
                (stateOf edit None 0 sampleForm)))))
  = false.
Proof.
  destruct (sections_share_cooldown None specEntriesToMarkdown
              1700000000000 (Some "Better") 1700000002000 1700000030000
              (Ok (Normal (Some "More skills"))) 1700000031000
              (stateOf edit None 0 sampleForm))
    as (A & _).
  - vm_compute. discriminate.
  - reflexivity.
  - destruct (A eq_refl) as (_ & B & _). exact B.
Defined.

Lemma waitTime_bounds_witness :
  1 <= waitTime 1700000030500 1700000000000 <= 60.
Proof.
  apply (proj1 (waitTime_bounds 1700000030500 1700000000000)).
  vm_compute. split; [discriminate | reflexivity].
Defined.

Lemma handleImproveSummary_failure_witness :
  errorToasts
    (log
       (handleImproveSummary 1700000000000
          (NotOk 429 (Normal "Too Many Requests")) 1700000000100
          (stateOf edit None 0 sampleForm) (stateOf edit None 0 sampleForm)))
  = 2%nat
  /\ lastEnhancementTime
       (store
          (handleImproveSummary 1700000000000
             (OkNull "Cannot read properties of null") 1700000000100
             (stateOf edit None 0 sampleForm)
             (stateOf edit None 0 sampleForm)))
     = 1700000000100.
Proof.
  destruct (handleImproveSummary_failure 1700000000000 1700000000100
              (stateOf edit None 0 sampleForm)
              (stateOf edit None 0 sampleForm))
    as (A & B).
  - reflexivity.
  - vm_compute. discriminate.
  - destruct (A (NotOk 429 (Normal "Too Many Requests")) eq_refl)
      as (_ & C & _).
    destruct (B "Cannot read properties of null") as (_ & _ & _ & L & _).
    split; [exact C | exact L].
Defined.

Lemma handleImproveSummary_success_witness :
  formValues
    (store
       (handleImproveSummary 1700000000000 (Ok (Normal (Some "Better")))
          1700000002000
          (stateOf edit None 0 sampleForm)
          (setValue (WSkills "typed meanwhile")
             (stateOf edit None 0 sampleForm))))
  = writeField (WSummary "Better")
      (writeField (WSkills "typed meanwhile") sampleForm).
Proof.
  destruct (handleImproveSummary_success 1700000000000 (Some "Better")
              1700000002000 (stateOf edit None 0 sampleForm)
              (setValue (WSkills "typed meanwhile")
                 (stateOf edit None 0 sampleForm)))
    as (_ & _ & _ & A & _).
  - reflexivity.
  - vm_compute. discriminate.
  - destruct (A "Better" eq_refl) as (F & _); [discriminate | exact F].
Defined.

Lemma handleEnhanceResume_failure_witness :
  formValues
    (store
       (handleEnhanceResume specEntriesToMarkdown
          (NotOk 429 (Normal "quota exceeded"))
          (stateOf edit None 0 sampleForm) (stateOf edit None 0 sampleForm)))
  = sampleForm.
Proof.
  destruct (handleEnhanceResume_failure specEntriesToMarkdown
              (NotOk 429 (Normal "quota exceeded"))
              (stateOf edit None 0 sampleForm)
              (stateOf edit None 0 sampleForm))
    as (_ & _ & F & _).
  - reflexivity.
  - reflexivity.
  - exact F.
Defined.

Lemma handleFileUpload_outside_cooldown_witness :
  formValues
    (store
       (handleFileUpload specEntriesToMarkdown true
          (Rejected "Failed to fetch")
          (stateOf edit None 0 sampleForm) (stateOf edit None 0 sampleForm)))
  = sampleForm.
Proof.
  destruct (handleFileUpload_outside_cooldown specEntriesToMarkdown true
              (Rejected "Failed to fetch") (stateOf edit None 0 sampleForm)
              (stateOf edit None 0 sampleForm))
    as (_ & _ & _ & _ & A).
  destruct (A eq_refl eq_refl) as (_ & F & _). exact F.
Defined.

Lemma getCombinedContent_empty_iff_witness :
  summary (formValues (stateOf edit None 0 defaultValues)) = ""
  /\ projected (Some "# Saved") specEntriesToMarkdown
       (stateOf edit None 0 defaultValues)
     = Some "# Saved".
Proof.
  destruct (getCombinedContent_empty_iff (Some "# Saved")
              specEntriesToMarkdown (stateOf edit None 0 defaultValues))
    as (A & B).
  split.
  - apply (proj1 A). reflexivity.
  - apply (proj2 B). left. reflexivity.
Defined.

Lemma handleDelete_resets_witness :
  previewContent
    (component
       (fst (dispatchDelete (Some "# Saved") specEntriesToMarkdown
               (Normal tt)
               {| component := stateOf edit (Some "shown") 0 sampleForm;
                  atsScore := Some 80; atsFeedback := Some "{}" |})))
  = Some "# Saved".
Proof.
  destruct (proj1 (handleDelete_resets (Some "# Saved")
                     specEntriesToMarkdown specEntriesToMarkdown_nil
                     {| component := stateOf edit (Some "shown") 0 sampleForm;
                        atsScore := Some 80; atsFeedback := Some "{}" |}))
    as (_ & _ & _ & _ & _ & _ & E & _).
  apply E. reflexivity.
Defined.

Lemma formatContent_fixed_witness :
  formatContent ("# Ana" ++ Js.nl ++ Js.nl ++ "Engineer, Acme")
  = "# Ana" ++ Js.nl ++ Js.nl ++ "Engineer, Acme".
Proof.
  apply (formatContent_fixed
           ("# Ana" ++ Js.nl ++ Js.nl ++ "Engineer, Acme"));
    reflexivity.
Defined.

Lemma onSubmit_saves_displayed_text_witness :
  onSubmit "replace of undefined" (Normal tt)
    (store
       (dispatch None specEntriesToMarkdown
          (EditMarkdown (Some ("  my text" ++ Js.nl)))
          (stateOf preview (Some "X") 0 sampleForm)))
  = [SaveResumeFn (formatContent ("  my text" ++ Js.nl))].
Proof.
  destruct (onSubmit_saves_displayed_text None specEntriesToMarkdown
              "replace of undefined" (Normal tt))
    as (_ & A & _).
  apply A. reflexivity.
Defined.
